(** * Study-Buddy backend: vote ledger and submission gate

    A shallow embedding of [Backend/models.py], [Backend/views/vote.py] and
    [Backend/views/submission.py].  Tables are lists of rows in table order,
    request handlers are functions from the store and the request to the new
    store and the response, and the clock is an explicit argument. *)

From Stdlib Require Import ZArith List String Ascii Bool Lia.
From Stdlib Require Import Permutation Sorted DecimalString.
Import ListNotations.

Open Scope Z_scope.

(** ** Python values used by the handlers *)

(** Truth value of an optional integer ([None] and [0] are falsy). *)
Definition truthy_int (v : option Z) : bool :=
  match v with
  | Some n => negb (n =? 0)
  | None => false
  end.

(** Truth value of an optional string ([None] and the empty string are
    falsy). *)
Definition truthy_str (v : option string) : bool :=
  match v with
  | Some s => negb (s =? "")%string
  | None => false
  end.

(** Whether a lookup returned a row. *)
Definition found {A : Type} (o : option A) : bool :=
  match o with
  | Some _ => true
  | None => false
  end.

(** [x in [...]] on strings. *)
Definition str_in (x : string) (l : list string) : bool :=
  existsb (String.eqb x) l.

(** Whether a string holds the character [c]. *)
Fixpoint has_char (c : ascii) (s : string) : bool :=
  match s with
  | EmptyString => false
  | String d rest => Ascii.eqb d c || has_char c rest
  end.

(** [str(n)] for an integer. *)
Definition str_of_int (n : Z) : string :=
  NilZero.string_of_int (Z.to_int n).

(** ** models.py *)

Record User := mkUser {
  user_id : Z;
  username : string;
  email : string;
  role : string
}.

Record Answer := mkAnswer {
  answer_id : Z;
  answer_body : string;
  answer_question_id : Z;
  answer_author_id : Z;
  is_best : bool
}.

Record Vote := mkVote {
  vote_id : Z;
  vote_user_id : Z;
  vote_answer_id : Z;
  vote_type : string
}.

Record Assignment := mkAssignment {
  assignment_id : Z;
  title : string;
  due_date : option Z;
  is_active : bool;
  unit_id : Z;
  assignment_updated_at : Z
}.

Record Submission := mkSubmission {
  submission_id : Z;
  content : option string;
  file_path : option string;
  student_id : Z;
  sub_assignment_id : Z;
  created_at : Z;
  updated_at : Z
}.

(** The persisted world: the five tables the two views read or write, and the
    paths written below the upload directory.  The [touch] listener assigns
    [updated_at] of a parent row after the flush that wrote the child; the
    parent is clean then and the assignment is never written, so it is no
    part of the handlers below. *)
Record Store := mkStore {
  users : list User;
  answers : list Answer;
  votes : list Vote;
  assignments : list Assignment;
  submissions : list Submission;
  saved_files : list string
}.

(** ** Query helpers *)

Section Query.
Context {A : Type}.

(** [Model.query.filter_by(...).first()]: the first row of the table that
    matches. *)
Definition first (p : A -> bool) (table : list A) : option A :=
  find p table.

(** [Model.query.filter_by(...).count()]. *)
Definition count (p : A -> bool) (table : list A) : Z :=
  Z.of_nat (List.length (filter p table)).

(** [db.session.delete(row)] for the row that [first p] returned: that row
    leaves the table, every other row stays where it is. *)
Fixpoint delete_first (p : A -> bool) (table : list A) : list A :=
  match table with
  | [] => []
  | x :: rest => if p x then rest else x :: delete_first p rest
  end.

(** An attribute assignment on the row that [first p] returned, followed by
    a commit: the row is rewritten where it stands. *)
Fixpoint update_first (p : A -> bool) (f : A -> A) (table : list A) : list A :=
  match table with
  | [] => []
  | x :: rest => if p x then f x :: rest else x :: update_first p f rest
  end.
End Query.

(** The next value of an integer primary key: one more than the largest key
    in the table. *)
Definition next_id (ids : list Z) : Z :=
  1 + fold_right Z.max 0 ids.

(** ** Responses *)

(** One row of the ranking returned by [get_top_answers]. *)
Record AnswerScore := mkAnswerScore {
  as_answer_id : Z;
  as_question_id : Z;
  as_author_id : Z;
  as_body : string;
  upvotes : Z;
  downvotes : Z;
  score : Z
}.

(** The JSON documents the handlers build, and the error page Flask answers
    with (status 500) when a handler raises. *)
Inductive Json :=
| JError (error : string)
| JMessage (message : string)
| JVotes (aid ups downs total_score : Z)
| JTop (success : bool) (total_answers : Z) (rows : list AnswerScore)
| JSubmitted (success : bool) (message : string) (submission : Submission)
| JServerError.

(** A Flask response: the document and the status code. *)
Definition Response : Type := Json * Z.

(** ** views/vote.py *)

(** The JSON body of a vote request. *)
Record VoteData := mkVoteData {
  data_user_id : option Z;
  data_vote_type : option string
}.

Definition set_vote_type (t : string) (v : Vote) : Vote :=
  mkVote (vote_id v) (vote_user_id v) (vote_answer_id v) t.

(** [filter_by(user_id=u, answer_id=a)] on the votes table. *)
Definition by_user_answer (u a : Z) (v : Vote) : bool :=
  (vote_user_id v =? u) && (vote_answer_id v =? a).

(** [filter_by(answer_id=a, vote_type=t)] on the votes table. *)
Definition by_answer_type (a : Z) (t : string) (v : Vote) : bool :=
  (vote_answer_id v =? a) && (vote_type v =? t)%string.

Definition get_answer (s : Store) (a : Z) : option Answer :=
  first (fun x => answer_id x =? a) (answers s).

Definition get_user (s : Store) (u : Z) : option User :=
  first (fun x => user_id x =? u) (users s).

Definition with_votes (s : Store) (vs : list Vote) : Store :=
  mkStore (users s) (answers s) vs (assignments s) (submissions s)
          (saved_files s).

(** [vote_answer]: create a vote, toggle it off, or switch it. *)
Definition vote_answer (s : Store) (a : Z) (data : VoteData)
  : Store * Response :=
  if negb (truthy_int (data_user_id data) && truthy_str (data_vote_type data))
  then (s, (JError "user_id and vote_type are required", 400))
  else
    match data_user_id data, data_vote_type data with
    | Some u, Some t =>
      if negb (str_in t ["up"; "down"]%string)
      then (s, (JError "vote_type must be 'up' or 'down'", 400))
      else
        match get_answer s a with
        | None => (s, (JError "Answer not found", 404))
        | Some _ =>
          match get_user s u with
          | None => (s, (JError "User not found", 404))
          | Some _ =>
            match first (by_user_answer u a) (votes s) with
            | Some existing_vote =>
              if (vote_type existing_vote =? t)%string
              then (with_votes s (delete_first (by_user_answer u a) (votes s)),
                    (JMessage (t ++ "vote removed."), 200))
              else (with_votes s
                      (update_first (by_user_answer u a) (set_vote_type t)
                                    (votes s)),
                    (JMessage ("Vote changed to " ++ t ++ "vote."), 200))
            | None =>
              let new_vote :=
                mkVote (next_id (map vote_id (votes s))) u a t in
              (with_votes s (votes s ++ [new_vote]),
               (JMessage (t ++ "vote added successfully."), 201))
            end
          end
        end
    | _, _ => (s, (JError "user_id and vote_type are required", 400))
    end.

(** [get_votes]: the tally of one answer. *)
Definition get_votes (s : Store) (a : Z) : Store * Response :=
  match get_answer s a with
  | None => (s, (JError "Answer not found", 404))
  | Some _ =>
    let ups := count (by_answer_type a "up") (votes s) in
    let downs := count (by_answer_type a "down") (votes s) in
    (s, (JVotes a ups downs (ups - downs), 200))
  end.

(** [remove_vote]: delete the vote of a user on an answer. *)
Definition remove_vote (s : Store) (a : Z) (u : option Z)
  : Store * Response :=
  if negb (truthy_int u)
  then (s, (JError "user_id is required", 400))
  else
    match u with
    | Some uid =>
      match first (by_user_answer uid a) (votes s) with
      | None => (s, (JError "No vote found for this user", 404))
      | Some _ =>
        (with_votes s (delete_first (by_user_answer uid a) (votes s)),
         (JMessage "Vote removed successfully", 200))
      end
    | None => (s, (JError "user_id is required", 400))
    end.

(** The row [get_top_answers] builds for one answer. *)
Definition score_row (s : Store) (x : Answer) : AnswerScore :=
  let ups := count (by_answer_type (answer_id x) "up") (votes s) in
  let downs := count (by_answer_type (answer_id x) "down") (votes s) in
  mkAnswerScore (answer_id x) (answer_question_id x) (answer_author_id x)
                (answer_body x) ups downs (ups - downs).

(** [sorted(data, key=score, reverse=True)]: a stable sort, highest score
    first; rows of equal score keep the order they had. *)
Fixpoint insert_desc (x : AnswerScore) (l : list AnswerScore)
  : list AnswerScore :=
  match l with
  | [] => [x]
  | y :: rest =>
    if score y <=? score x then x :: y :: rest
    else y :: insert_desc x rest
  end.

Definition sorted_desc (l : list AnswerScore) : list AnswerScore :=
  fold_right insert_desc [] l.

(** The answers [get_top_answers] ranks: the whole table, or the answers of
    one question when the [question_id] argument is truthy. *)
Definition candidates (s : Store) (question_id : option Z) : list Answer :=
  if truthy_int question_id
  then match question_id with
       | Some q => filter (fun x => answer_question_id x =? q) (answers s)
       | None => answers s
       end
  else answers s.

(** [get_top_answers]; [question_id] is the value of
    [request.args.get("question_id", type=int)]. *)
Definition get_top_answers (s : Store) (question_id : option Z)
  : Store * Response :=
  let data := map (score_row s) (candidates s question_id) in
  let data := sorted_desc data in
  (s, (JTop true (Z.of_nat (List.length data)) data, 200)).

(** ** views/submission.py *)

(** An uploaded file; its truth value is that of its file name. *)
Record FileStorage := mkFileStorage {
  filename : string
}.

Definition truthy_file (f : option FileStorage) : bool :=
  match f with
  | Some x => negb (filename x =? "")%string
  | None => false
  end.

(** The form of a submission request.  An id field is [None] when the field
    is absent or empty and [Some n] when it holds the decimal numeral of
    [n]. *)
Record SubmitForm := mkSubmitForm {
  form_student_id : option Z;
  form_assignment_id : option Z;
  form_content : option string;
  form_file : option FileStorage
}.

(** The values [datetime.utcnow()] returns at its three calls. *)
Record Clock := mkClock {
  utcnow_deadline : Z;
  utcnow_created : Z;
  utcnow_updated : Z
}.

Definition UPLOAD_DIR : string := "uploads/submissions".

Definition allowed_ext : list string :=
  ["pdf"; "docx"; "jpg"; "jpeg"; "png"]%string.

(** [s.split(sep)] for a one-character separator. *)
Fixpoint split_on (sep : ascii) (s : string) : list string :=
  match s with
  | EmptyString => [EmptyString]
  | String c rest =>
    if Ascii.eqb c sep then EmptyString :: split_on sep rest
    else match split_on sep rest with
         | [] => [String c EmptyString]
         | w :: ws => String c w :: ws
         end
  end.

Definition lower_ascii (c : ascii) : ascii :=
  let n := nat_of_ascii c in
  if (65 <=? n)%nat && (n <=? 90)%nat then ascii_of_nat (n + 32) else c.

(** [s.lower()]. *)
Fixpoint lower (s : string) : string :=
  match s with
  | EmptyString => EmptyString
  | String c rest => String (lower_ascii c) (lower rest)
  end.

(** [name.split(".")[-1].lower()]. *)
Definition file_ext (name : string) : string :=
  lower (last (split_on "." name) EmptyString).

(** [os.path.join(UPLOAD_DIR, name)] for a relative [name]. *)
Definition path_join (dir name : string) : string :=
  (dir ++ "/" ++ name)%string.

Definition get_assignment (s : Store) (a : Z) : option Assignment :=
  first (fun x => assignment_id x =? a) (assignments s).

(** [filter_by(student_id=st, assignment_id=a)] on the submissions table. *)
Definition by_student_assignment (st a : Z) (x : Submission) : bool :=
  (student_id x =? st) && (sub_assignment_id x =? a).

(** The file part of [submit_assignment]: an error response, or the path the
    file is saved under ([None] when the request carries no file). *)
Definition handle_file (st a attempts : Z) (file : option FileStorage)
  : Response + option string :=
  if truthy_file file
  then match file with
       | Some f =>
         let ext := file_ext (filename f) in
         if negb (str_in ext allowed_ext)
         then inl (JError ("Invalid file type: " ++ ext), 400)
         else
           let name := ("student" ++ str_of_int st ++ "_assignment"
                        ++ str_of_int a ++ "_attempt"
                        ++ str_of_int (attempts + 1) ++ "_"
                        ++ filename f)%string in
           inr (Some (path_join UPLOAD_DIR name))
       | None => inr None
       end
  else inr None.

(** The text of [s] after the prefix [p], when [s] starts with [p]. *)
Fixpoint strip_prefix (p s : string) : option string :=
  match p with
  | EmptyString => Some s
  | String c p' =>
    match s with
    | EmptyString => None
    | String d s' => if Ascii.eqb c d then strip_prefix p' s' else None
    end
  end.

(** [file.save(path)] opens the path for writing and raises when it cannot.
    The views create the directory [UPLOAD_DIR] and nothing below it, so a
    path below it can be opened exactly when the rest of the path names no
    further directory (it holds no "/") and holds no NUL character. *)
Definition can_save (path : string) : bool :=
  match strip_prefix (UPLOAD_DIR ++ "/") path with
  | Some name => negb (has_char "/" name) && negb (has_char Ascii.zero name)
  | None => false
  end.

(** Whether the save of [submit_assignment] goes through: there is no file
    to save, or its path can be written. *)
Definition save_ok (path : option string) : bool :=
  match path with
  | Some p => can_save p
  | None => true
  end.

(** The writes at the end of [submit_assignment]: the file is saved when
    there is one, and the new row is added and committed.  When the save
    raises, the request ends with status 500 before anything is written. *)
Definition create_submission (s : Store) (clock : Clock) (st a attempts : Z)
    (text : option string) (path : option string) : Store * Response :=
  if save_ok path
  then
    let submission :=
      mkSubmission (next_id (map submission_id (submissions s))) text path
                   st a (utcnow_created clock) (utcnow_updated clock) in
    (mkStore (users s) (answers s) (votes s) (assignments s)
             (submissions s ++ [submission])
             (match path with
              | Some p => saved_files s ++ [p]
              | None => saved_files s
              end),
     (JSubmitted true
        ("Submission successful (Attempt " ++ str_of_int (attempts + 1)
         ++ " of 3)")
        submission, 201))
  else (s, (JServerError, 500)).

(** [submit_assignment]: at most three attempts per student and
    assignment. *)
Definition submit_assignment (s : Store) (clock : Clock) (form : SubmitForm)
  : Store * Response :=
  match form_student_id form, form_assignment_id form with
  | Some st, Some a =>
    match get_assignment s a with
    | None => (s, (JError "Assignment not found", 404))
    | Some assignment =>
      if negb (is_active assignment)
      then (s, (JError "Assignment is not active", 400))
      else
        match due_date assignment with
        | None => (s, (JError "Assignment due_date not set", 400))
        | Some due =>
          if utcnow_deadline clock >? due
          then (s, (JError "Submission deadline has passed", 400))
          else
            match get_user s st with
            | None => (s, (JError "Student not found", 404))
            | Some _ =>
              let attempts :=
                count (by_student_assignment st a) (submissions s) in
              if attempts >=? 3
              then (s, (JError
                     "You have reached the maximum of 3 submission attempts",
                     400))
              else if negb (truthy_str (form_content form))
                      && negb (truthy_file (form_file form))
              then (s, (JError
                     "You must submit either text content or a file", 400))
              else
                match handle_file st a attempts (form_file form) with
                | inl err => (s, err)
                | inr path =>
                  create_submission s clock st a attempts
                                    (form_content form) path
                end
            end
        end
    end
  | _, _ => (s, (JError "student_id and assignment_id are required", 400))
  end.

(** The two phases of [submit_assignment]: the reads and checks that decide
    the request, and the writes that follow when every check passed. *)
Record Pending := mkPending {
  pending_student_id : Z;
  pending_assignment_id : Z;
  pending_attempts : Z;
  pending_content : option string;
  pending_path : option string
}.

Definition submission_checks (s : Store) (now : Z) (form : SubmitForm)
  : Response + Pending :=
  match form_student_id form, form_assignment_id form with
  | Some st, Some a =>
    match get_assignment s a with
    | None => inl (JError "Assignment not found", 404)
    | Some assignment =>
      if negb (is_active assignment)
      then inl (JError "Assignment is not active", 400)
      else
        match due_date assignment with
        | None => inl (JError "Assignment due_date not set", 400)
        | Some due =>
          if now >? due
          then inl (JError "Submission deadline has passed", 400)
          else
            match get_user s st with
            | None => inl (JError "Student not found", 404)
            | Some _ =>
              let attempts :=
                count (by_student_assignment st a) (submissions s) in
              if attempts >=? 3
              then inl (JError
                     "You have reached the maximum of 3 submission attempts",
                     400)
              else if negb (truthy_str (form_content form))
                      && negb (truthy_file (form_file form))
              then inl (JError
                     "You must submit either text content or a file", 400)
              else
                match handle_file st a attempts (form_file form) with
                | inl err => inl err
                | inr path =>
                  inr (mkPending st a attempts (form_content form) path)
                end
            end
        end
    end
  | _, _ => inl (JError "student_id and assignment_id are required", 400)
  end.

Definition persist (s : Store) (clock : Clock) (p : Pending)
  : Store * Response :=
  create_submission s clock (pending_student_id p) (pending_assignment_id p)
                    (pending_attempts p) (pending_content p)
                    (pending_path p).

(** ** Sequences of requests *)

(** A request to the vote ledger. *)
Inductive Call :=
| CastVote (a : Z) (data : VoteData)
| RemoveVote (a : Z) (u : option Z).

Definition handle (s : Store) (c : Call) : Store * Response :=
  match c with
  | CastVote a data => vote_answer s a data
  | RemoveVote a u => remove_vote s a u
  end.

(** The store after the calls ran one after the other. *)
Definition run (s : Store) (calls : list Call) : Store :=
  fold_left (fun st c => fst (handle st c)) calls s.

(** The stored vote type of user [u] on answer [a], if a vote is stored. *)
Definition pair_state (s : Store) (u a : Z) : option string :=
  option_map vote_type (first (by_user_answer u a) (votes s)).

(** The vote type a call submits for the pair [(u, a)]: defined for a
    [vote_answer] request of user [u] on answer [a] that passes the four
    validations and so reaches the lookup of the stored vote. *)
Definition cast_on (s : Store) (u a : Z) (c : Call) : option string :=
  match c with
  | CastVote a' (mkVoteData (Some u') (Some t)) =>
    if (u' =? u) && (a' =? a) && negb (u' =? 0)
       && str_in t ["up"; "down"]%string
       && found (get_answer s a') && found (get_user s u')
    then Some t
    else None
  | _ => None
  end.

Definition same_state (x y : option string) : bool :=
  match x, y with
  | Some v, Some w => (v =? w)%string
  | None, None => true
  | _, _ => false
  end.

(** The most recently submitted vote type for the pair that differed from
    the state stored when it was submitted; [acc] is the value before the
    first call. *)
Fixpoint last_distinct (u a : Z) (s : Store) (calls : list Call)
    (acc : option string) : option string :=
  match calls with
  | [] => acc
  | c :: rest =>
    let acc' :=
      match cast_on s u a c with
      | Some t => if same_state (pair_state s u a) (Some t) then acc
                  else Some t
      | None => acc
      end in
    last_distinct u a (fst (handle s c)) rest acc'
  end.

(** The store after the submission requests ran one after the other, each
    with its own clock readings. *)
Definition submit_all (s : Store) (reqs : list (Clock * SubmitForm)) : Store :=
  fold_left (fun st r => fst (submit_assignment st (fst r) (snd r))) reqs s.

(** ** The gate as an ordered list of checks *)

Inductive GateError :=
| ASSIGNMENT_NOT_FOUND
| ASSIGNMENT_INACTIVE
| DUE_DATE_MISSING
| PAST_DEADLINE
| STUDENT_NOT_FOUND
| ATTEMPT_LIMIT_REACHED
| EMPTY_SUBMISSION
| INVALID_FILE_TYPE.

(** The response the view gives for each rejection. *)
Definition gate_response (form : SubmitForm) (e : GateError) : Response :=
  match e with
  | ASSIGNMENT_NOT_FOUND => (JError "Assignment not found", 404)
  | ASSIGNMENT_INACTIVE => (JError "Assignment is not active", 400)
  | DUE_DATE_MISSING => (JError "Assignment due_date not set", 400)
  | PAST_DEADLINE => (JError "Submission deadline has passed", 400)
  | STUDENT_NOT_FOUND => (JError "Student not found", 404)
  | ATTEMPT_LIMIT_REACHED =>
    (JError "You have reached the maximum of 3 submission attempts", 400)
  | EMPTY_SUBMISSION =>
    (JError "You must submit either text content or a file", 400)
  | INVALID_FILE_TYPE =>
    (JError ("Invalid file type: "
             ++ match form_file form with
                | Some f => file_ext (filename f)
                | None => ""
                end), 400)
  end.

(** The eight conditions of the gate, each stated on its own, in the order
    of the specification, with the error each one raises when it fails. *)
Definition gate_checks (s : Store) (now st a : Z) (form : SubmitForm)
  : list (GateError * bool) :=
  let assignment := get_assignment s a in
  [ (ASSIGNMENT_NOT_FOUND,
     match assignment with Some _ => true | None => false end);
    (ASSIGNMENT_INACTIVE,
     match assignment with Some x => is_active x | None => false end);
    (DUE_DATE_MISSING,
     match assignment with
     | Some x => match due_date x with Some _ => true | None => false end
     | None => false
     end);
    (PAST_DEADLINE,
     match assignment with
     | Some x => match due_date x with
                 | Some due => now <=? due
                 | None => false
                 end
     | None => false
     end);
    (STUDENT_NOT_FOUND,
     match get_user s st with Some _ => true | None => false end);
    (ATTEMPT_LIMIT_REACHED,
     count (by_student_assignment st a) (submissions s) <? 3);
    (EMPTY_SUBMISSION,
     truthy_str (form_content form) || truthy_file (form_file form));
    (INVALID_FILE_TYPE,
     match form_file form with
     | Some f => if truthy_file (Some f)
                 then str_in (file_ext (filename f)) allowed_ext
                 else true
     | None => true
     end) ].

(** The error of the first condition that fails, if one does. *)
Fixpoint first_failure (checks : list (GateError * bool))
  : option GateError :=
  match checks with
  | [] => None
  | (e, ok) :: rest => if ok then first_failure rest else Some e
  end.

(** ** Two requests in flight *)

(** The handler reads and checks first and writes last, with nothing that
    keeps another request from running in between.  A request that is being
    served is not started, past its checks and about to write, or
    answered. *)
Inductive Progress :=
| Waiting
| Checked (p : Pending)
| Answered (r : Response).

Record Request := mkRequest {
  req_clock : Clock;
  req_form : SubmitForm;
  req_progress : Progress
}.

(** One step of a request: the checks, then the writes. *)
Definition step (s : Store) (r : Request) : Store * Request :=
  match req_progress r with
  | Waiting =>
    match submission_checks s (utcnow_deadline (req_clock r)) (req_form r) with
    | inl resp => (s, mkRequest (req_clock r) (req_form r) (Answered resp))
    | inr p => (s, mkRequest (req_clock r) (req_form r) (Checked p))
    end
  | Checked p =>
    let '(s', resp) := persist s (req_clock r) p in
    (s', mkRequest (req_clock r) (req_form r) (Answered resp))
  | Answered _ => (s, r)
  end.

(** Two requests served under a schedule; [true] lets the first request take
    a step, [false] the second. *)
Fixpoint interleave (sched : list bool) (s : Store) (r1 r2 : Request)
  : Store * Request * Request :=
  match sched with
  | [] => (s, r1, r2)
  | true :: rest =>
    let '(s', r1') := step s r1 in interleave rest s' r1' r2
  | false :: rest =>
    let '(s', r2') := step s r2 in interleave rest s' r1 r2'
  end.

(** ** Outcomes of a vote request *)

(** The three answers of [vote_answer] to a request that passed its
    validations: a vote was created, removed, or switched. *)
Definition vote_created (t : string) : Response :=
  (JMessage (t ++ "vote added successfully."), 201).

Definition vote_removed (t : string) : Response :=
  (JMessage (t ++ "vote removed."), 200).

Definition vote_switched (t : string) : Response :=
  (JMessage ("Vote changed to " ++ t ++ "vote."), 200).

(** ** Predicates used in the statements *)

(** Scores do not increase from one row to the next. *)
Definition score_ge (x y : AnswerScore) : Prop := score y <= score x.

(** The stored votes of user [u] on answer [a]. *)
Definition pair_votes (s : Store) (u a : Z) : list Vote :=
  filter (by_user_answer u a) (votes s).

(** The pair has at most one vote, and a stored vote has the type [acc]. *)
Definition tracked (u a : Z) (s : Store) (acc : option string) : Prop :=
  (List.length (pair_votes s u a) <= 1)%nat
  /\ forall v, In v (pair_votes s u a) -> Some (vote_type v) = acc.

(** The status code a request was answered with, once it is answered. *)
Definition answered_status (r : Request) : option Z :=
  match req_progress r with
  | Answered resp => Some (snd resp)
  | _ => None
  end.

(** ** Sample data *)

(** A store with student 5, assignment 9 (active, due at time 100) and [n]
    stored attempts of the student for it. *)
Definition attempt (k : nat) : Submission :=
  mkSubmission (Z.of_nat k) (Some "draft"%string) None 5 9 10 10.

Definition gate_store (n : nat) : Store :=
  mkStore [mkUser 5 "sam" "sam@example.org" "student"] [] []
          [mkAssignment 9 "Essay" (Some 100) true 1 10]
          (map attempt (seq 1 n)) [].

Definition clock_at (t : Z) : Clock := mkClock t t t.

Definition text_form : SubmitForm :=
  mkSubmitForm (Some 5) (Some 9) (Some "my answer"%string) None.

Definition file_form (name : string) : SubmitForm :=
  mkSubmitForm (Some 5) (Some 9) None (Some (mkFileStorage name)).

(** Equality of optional integers. *)
Definition same_int (x y : option Z) : bool :=
  match x, y with
  | Some v, Some w => v =? w
  | None, None => true
  | _, _ => false
  end.

(** ** views/submission.py: the listings *)

(** The document [serialize_submission] builds.  A time stamp is kept as the
    clock value whose ISO text the view prints. *)
Record SubmissionJson := mkSubmissionJson {
  json_id : Z;
  json_student_id : Z;
  json_assignment_id : Z;
  json_content : option string;
  json_file_path : option string;
  json_created_at : option Z;
  json_updated_at : option Z
}.

Definition serialize_submission (x : Submission) : SubmissionJson :=
  mkSubmissionJson (submission_id x) (student_id x) (sub_assignment_id x)
                   (content x) (file_path x)
                   (Some (created_at x)) (Some (updated_at x)).

(** The documents of the two listing views. *)
Inductive ListingJson :=
| LError (error : string)
| LMessage (message : string)
| LStudent (n : Z) (rows : list SubmissionJson)
| LAssignment (assignment : string) (total_submissions : Z)
              (rows : list SubmissionJson).

(** [get_student_submission]: the submissions of a student for an
    assignment. *)
Definition get_student_submission (s : Store) (a st : Z)
  : Store * (ListingJson * Z) :=
  let found_rows :=
    filter (fun x => (sub_assignment_id x =? a) && (student_id x =? st))
           (submissions s) in
  match found_rows with
  | [] => (s, (LError "No submissions found", 404))
  | _ :: _ =>
    (s, (LStudent (Z.of_nat (List.length found_rows))
                  (map serialize_submission found_rows), 200))
  end.

(** [get_all_submissions]: the submissions for an assignment. *)
Definition get_all_submissions (s : Store) (a : Z)
  : Store * (ListingJson * Z) :=
  match get_assignment s a with
  | None => (s, (LError "Assignment not found", 404))
  | Some assignment =>
    let found_rows :=
      filter (fun x => sub_assignment_id x =? a) (submissions s) in
    match found_rows with
    | [] => (s, (LMessage "No submissions for this assignment yet", 200))
    | _ :: _ =>
      (s, (LAssignment (title assignment)
                       (Z.of_nat (List.length found_rows))
                       (map serialize_submission found_rows), 200))
    end
  end.

(** ** views/assignment.py *)

Definition ALLOWED_EXTENSIONS : list string :=
  ["pdf"; "docx"; "doc"; "zip"]%string.

(** [s.rsplit(sep, 1)]: the text before the last separator and the text
    after it, or the text alone when it has no separator. *)
Definition rsplit1 (sep : ascii) (s : string) : list string :=
  match split_on sep s with
  | [] => [s]
  | [_] => [s]
  | parts =>
    [String.concat (String sep EmptyString) (removelast parts);
     last parts EmptyString]
  end.

(** [allowed_file]. *)
Definition allowed_file (name : string) : bool :=
  has_char "." name
  && str_in (lower (nth 1 (rsplit1 "." name) EmptyString)) ALLOWED_EXTENSIONS.

(** The documents of the views that change one row. *)
Inductive ChangeJson :=
| CError (error : string)
| CToggled (success : bool) (message : string) (active : bool)
| CDeleted (success : bool) (message : string).

(** The row after [is_active] is assigned and the change is committed at
    time [now]: [updated_at] is declared with [onupdate=datetime.utcnow], so
    the update stamps it. *)
Definition set_is_active (b : bool) (now : Z) (x : Assignment) : Assignment :=
  mkAssignment (assignment_id x) (title x) (due_date x) b (unit_id x) now.

Definition set_updated_at (now : Z) (x : Assignment) : Assignment :=
  mkAssignment (assignment_id x) (title x) (due_date x) (is_active x)
               (unit_id x) now.

Definition with_assignments (s : Store) (l : list Assignment) : Store :=
  mkStore (users s) (answers s) (votes s) l (submissions s) (saved_files s).

(** [toggle_assignment]: flip the active flag of an assignment; [now] is
    the time of the commit. *)
Definition toggle_assignment (s : Store) (a now : Z)
  : Store * (ChangeJson * Z) :=
  match get_assignment s a with
  | None => (s, (CError "Assignment not found", 404))
  | Some assignment =>
    let active := negb (is_active assignment) in
    let status := (if active then "activated" else "deactivated")%string in
    (with_assignments s
       (update_first (fun x => assignment_id x =? a)
                     (set_is_active active now) (assignments s)),
     (CToggled true ("Assignment " ++ status ++ " successfully") active, 200))
  end.

(** ** views/answer.py *)

(** [x or y] on optional integers. *)
Definition or_int (x y : option Z) : option Z :=
  if truthy_int x then x else y.

(** [delete_answer]: only the author deletes an answer; its votes go with it
    (the [votes] relationship cascades).  [json_author] is the [author_id] of
    the JSON body and [arg_author] the one of the query string. *)
Definition delete_answer (s : Store) (a : Z) (json_author arg_author : option Z)
  : Store * (ChangeJson * Z) :=
  let author_id := or_int json_author arg_author in
  if negb (truthy_int author_id)
  then (s, (CError "author_id is required", 400))
  else
    match get_answer s a with
    | None => (s, (CError "Answer not found", 404))
    | Some answer =>
      if negb (same_int (Some (answer_author_id answer)) author_id)
      then (s, (CError "You can only delete your own answer.", 403))
      else
        (mkStore (users s)
                 (delete_first (fun x => answer_id x =? a) (answers s))
                 (filter (fun v => negb (vote_answer_id v =? answer_id answer))
                         (votes s))
                 (assignments s) (submissions s) (saved_files s),
         (CDeleted true "Answer deleted successfully", 200))
    end.

(** ** The stored vote of a pair, call by call *)

(** The vote type stored for the pair [(u, a)] after the calls, from the
    type [st] stored before them: a request of [u] on [a] that passes the
    validations stores its type, or removes the vote when the stored type
    is that type already; a [remove_vote] request of [u] on [a] removes it;
    every other call leaves it. *)
Fixpoint stored_after (u a : Z) (s : Store) (calls : list Call)
    (st : option string) : option string :=
  match calls with
  | [] => st
  | c :: rest =>
    let st' :=
      match cast_on s u a c with
      | Some t => if same_state st (Some t) then None else Some t
      | None =>
        match c with
        | RemoveVote a' (Some u') =>
          if (u' =? u) && (a' =? a) && negb (u' =? 0) then None else st
        | _ => st
        end
      end in
    stored_after u a (fst (handle s c)) rest st'
  end.

(** Whether the name of an uploaded file can be part of a path: a request
    without a file, or a file name without "/" and NUL. *)
Definition file_name_ok (file : option FileStorage) : bool :=
  match file with
  | Some f =>
    if truthy_file (Some f)
    then negb (has_char "/" (filename f))
         && negb (has_char Ascii.zero (filename f))
    else true
  | None => true
  end.

(** * Properties *)

(** ** Rows and tables *)

Section TableFacts.
Context {A : Type}.
Variable p : A -> bool.

Lemma first_filter (l : list A) : first p l = hd_error (filter p l).
Proof.
  unfold first.
  induction l as [|x l IH]; simpl; [reflexivity|].
  destruct (p x); simpl; auto.
Qed.

Lemma filter_delete_first (l : list A) :
  filter p (delete_first p l) = tl (filter p l).
Proof.
  induction l as [|x l IH]; simpl; [reflexivity|].
  destruct (p x) eqn:E; simpl; [reflexivity|].
  rewrite E. exact IH.
Qed.

Lemma filter_update_first (f : A -> A) (l : list A) :
  (forall x, p (f x) = p x) ->
  filter p (update_first p f l)
  = match filter p l with
    | [] => []
    | x :: rest => f x :: rest
    end.
Proof.
  intros Hf.
  induction l as [|x l IH]; simpl; [reflexivity|].
  destruct (p x) eqn:E; simpl.
  - rewrite Hf, E. reflexivity.
  - rewrite E. exact IH.
Qed.

Lemma filter_delete_first_other (q : A -> bool) (l : list A) :
  (forall x, p x = true -> q x = false) ->
  filter q (delete_first p l) = filter q l.
Proof.
  intros Hpq.
  induction l as [|x l IH]; simpl; [reflexivity|].
  destruct (p x) eqn:E; simpl.
  - rewrite (Hpq x E). reflexivity.
  - rewrite IH. reflexivity.
Qed.

Lemma filter_update_first_other (q : A -> bool) (f : A -> A) (l : list A) :
  (forall x, p x = true -> q x = false) ->
  (forall x, q (f x) = q x) ->
  filter q (update_first p f l) = filter q l.
Proof.
  intros Hpq Hf.
  induction l as [|x l IH]; simpl; [reflexivity|].
  destruct (p x) eqn:E; simpl.
  - rewrite Hf, (Hpq x E). reflexivity.
  - rewrite IH. reflexivity.
Qed.

(** The row [first] returns splits the table; deleting or rewriting it
    leaves both sides as they are. *)
Lemma first_split (f : A -> A) (l : list A) (v : A) :
  first p l = Some v ->
  exists before after,
    l = before ++ v :: after
    /\ forallb (fun x => negb (p x)) before = true
    /\ p v = true
    /\ delete_first p l = before ++ after
    /\ update_first p f l = before ++ f v :: after.
Proof.
  unfold first.
  induction l as [|x l IH]; simpl; [discriminate|].
  destruct (p x) eqn:E.
  - intros [= <-]. exists [], l. simpl. auto.
  - intros H. destruct (IH H) as (b & a & -> & Hb & Hv & Hd & Hu).
    exists (x :: b), a. simpl. rewrite E, Hb, Hd, Hu. auto.
Qed.
End TableFacts.

(** ** The vote ledger *)

(** C2. A [vote_answer] request with a vote type of "up" or "down", an
    existing user and an existing answer does exactly one of three things,
    decided by the stored vote of the pair: with no stored vote it appends a
    new vote of the given type and answers "created"; with a stored vote of
    the same type it deletes that row and answers "removed"; with a stored
    vote of the other type it rewrites the type of that row where it stands,
    keeping its key and position, and answers "switched".  The three answers
    are pairwise different and no other table changes. *)
Theorem vote_answer_three_way (s : Store) (a u : Z) (t : string) :
  u <> 0 ->
  (t = "up" \/ t = "down")%string ->
  get_user s u <> None ->
  get_answer s a <> None ->
  let s' := fst (vote_answer s a (mkVoteData (Some u) (Some t))) in
  let resp := snd (vote_answer s a (mkVoteData (Some u) (Some t))) in
  (users s' = users s /\ answers s' = answers s
   /\ assignments s' = assignments s /\ submissions s' = submissions s
   /\ saved_files s' = saved_files s)
  /\ match first (by_user_answer u a) (votes s) with
     | None =>
       resp = vote_created t
       /\ votes s' = votes s ++ [mkVote (next_id (map vote_id (votes s))) u a t]
     | Some v =>
       exists before after,
         votes s = before ++ v :: after
         /\ forallb (fun x => negb (by_user_answer u a x)) before = true
         /\ if (vote_type v =? t)%string
            then resp = vote_removed t /\ votes s' = before ++ after
            else resp = vote_switched t
                 /\ votes s' = before
                                ++ mkVote (vote_id v) (vote_user_id v)
                                          (vote_answer_id v) t :: after
     end
  /\ (vote_created t <> vote_removed t
      /\ vote_removed t <> vote_switched t
      /\ vote_created t <> vote_switched t).
Proof.
  intros Hu Ht Huser Hanswer.
  assert (Hin : str_in t ["up"; "down"]%string = true)
    by (destruct Ht; subst; reflexivity).
  assert (Hne : (t =? "")%string = false)
    by (destruct Ht; subst; reflexivity).
  unfold vote_answer, truthy_int, truthy_str.
  cbn [data_user_id data_vote_type].
  replace (u =? 0) with false by (symmetry; apply Z.eqb_neq; exact Hu).
  rewrite Hne, Hin. cbn [negb andb].
  destruct (get_answer s a); [|contradiction].
  destruct (get_user s u); [|contradiction].
  split; [|split].
  - destruct (first (by_user_answer u a) (votes s)) as [v|];
      [destruct (vote_type v =? t)%string|]; simpl; repeat split.
  - destruct (first (by_user_answer u a) (votes s)) as [v|] eqn:E.
    + destruct (first_split _ (set_vote_type t) _ _ E)
        as (before & after & Hl & Hb & _ & Hd & Hup).
      exists before, after. split; [exact Hl|]. split; [exact Hb|].
      destruct (vote_type v =? t)%string; simpl; split; auto.
    + simpl. split; reflexivity.
  - unfold vote_created, vote_removed, vote_switched.
    destruct Ht; subst; repeat split; discriminate.
Qed.

Lemma vote_answer_three_way_witness :
  let s := mkStore [mkUser 7 "ann" "ann@example.org" "student"]
                   [mkAnswer 4 "because" 2 7 false]
                   [mkVote 1 7 4 "up"] [] [] [] in
  snd (vote_answer s 4 (mkVoteData (Some 7) (Some "down"%string)))
  = vote_switched "down"
  /\ votes (fst (vote_answer s 4 (mkVoteData (Some 7) (Some "down"%string))))
     = [mkVote 1 7 4 "down"].
Proof.
  intros s.
  destruct (vote_answer_three_way s 4 7 "down") as (_ & H & _).
  - lia.
  - right; reflexivity.
  - discriminate.
  - discriminate.
  - cbn in H. destruct H as (before & after & Hl & Hb & Hr & Hv).
    split; [exact Hr|].
    destruct before as [|x before]; cbn in Hl.
    + injection Hl as <-. exact Hv.
    + injection Hl as _ Hl. destruct before; discriminate.
Defined.

Lemma filter_both {A : Type} (p q : A -> bool) (l : list A) :
  filter (fun x => p x && q x) l = filter q (filter p l).
Proof.
  induction l as [|x l IH]; simpl; [reflexivity|].
  destruct (p x); simpl; [destruct (q x)|]; rewrite IH; reflexivity.
Qed.

Lemma first_none_iff {A : Type} (p : A -> bool) (l : list A) :
  first p l = None <-> ~ exists x, In x l /\ p x = true.
Proof.
  unfold first. split.
  - intros H (x & Hin & Hp).
    rewrite (find_none p l H x Hin) in Hp. discriminate.
  - intros H. destruct (find p l) as [x|] eqn:E; [|reflexivity].
    exfalso. apply H. exists x. apply (find_some p l E).
Qed.

(** The number of votes on answer [a] whose type is [t], counted among the
    votes of that answer. *)
Lemma count_by_answer_type (s : Store) (a : Z) (t : string) :
  count (by_answer_type a t) (votes s)
  = Z.of_nat
      (List.length
         (filter (fun v => (vote_type v =? t)%string)
                 (filter (fun v => vote_answer_id v =? a) (votes s)))).
Proof.
  unfold count, by_answer_type.
  rewrite (filter_both (fun v => vote_answer_id v =? a)
                       (fun v => (vote_type v =? t)%string)).
  reflexivity.
Qed.

(** C5. [get_votes] answers "Answer not found" exactly when no answer has
    the given id.  Otherwise it returns the number of that answer's votes of
    type "up", the number of type "down", and their difference, which is
    negative when the down votes outnumber the up votes.  The store is left
    as it was. *)
Theorem get_votes_tally (s : Store) (a : Z) :
  let resp := snd (get_votes s a) in
  let mine := filter (fun v => vote_answer_id v =? a) (votes s) in
  let ups :=
    Z.of_nat (List.length (filter (fun v => (vote_type v =? "up")%string) mine)) in
  let downs :=
    Z.of_nat (List.length (filter (fun v => (vote_type v =? "down")%string) mine)) in
  fst (get_votes s a) = s
  /\ (resp = (JError "Answer not found", 404)
      <-> ~ exists x, In x (answers s) /\ answer_id x = a)
  /\ ((exists x, In x (answers s) /\ answer_id x = a) ->
      resp = (JVotes a ups downs (ups - downs), 200))
  /\ (exists s0 a0 n, snd (get_votes s0 a0) = (JVotes a0 0 1 n, 200) /\ n < 0).
Proof.
  cbv zeta.
  assert (Hex : get_answer s a = None
                <-> ~ exists x, In x (answers s) /\ answer_id x = a).
  { unfold get_answer. rewrite first_none_iff.
    split; intros H (x & Hin & Hx); apply H; exists x; split; auto.
    - apply Z.eqb_eq; exact Hx.
    - apply Z.eqb_eq in Hx; exact Hx. }
  assert (Hneg : exists s0 a0 n,
             snd (get_votes s0 a0) = (JVotes a0 0 1 n, 200) /\ n < 0).
  { exists (mkStore [] [mkAnswer 1 "x" 1 1 false] [mkVote 1 1 1 "down"]
                    [] [] []).
    exists 1, (-1). split; [reflexivity | lia]. }
  unfold get_votes.
  rewrite !count_by_answer_type.
  destruct (get_answer s a) as [x|]; simpl.
  - split; [reflexivity|]. split; [split|split]; auto.
    + discriminate.
    + intros H. apply Hex in H. discriminate.
  - split; [reflexivity|]. split; [split|split]; auto.
    + intros _. apply Hex. reflexivity.
    + intros H. exfalso. apply Hex in H; [exact H | reflexivity].
Qed.

Lemma get_votes_tally_witness :
  snd (get_votes
         (mkStore [] [mkAnswer 3 "so" 1 2 false]
                  [mkVote 1 5 3 "up"; mkVote 2 6 3 "down"; mkVote 3 7 3 "down";
                   mkVote 4 5 8 "up"] [] [] [])
         3)
  = (JVotes 3 1 2 (-1), 200).
Proof.
  apply (get_votes_tally
           (mkStore [] [mkAnswer 3 "so" 1 2 false]
                    [mkVote 1 5 3 "up"; mkVote 2 6 3 "down";
                     mkVote 3 7 3 "down"; mkVote 4 5 8 "up"] [] [] [])
           3).
  exists (mkAnswer 3 "so" 1 2 false). split; [left|]; reflexivity.
Defined.

(** ** Ranking *)

Lemma insert_desc_perm (x : AnswerScore) (l : list AnswerScore) :
  Permutation (x :: l) (insert_desc x l).
Proof.
  induction l as [|y l IH]; simpl; [apply Permutation_refl|].
  destruct (score y <=? score x).
  - apply Permutation_refl.
  - apply perm_trans with (y :: x :: l); [apply perm_swap|].
    apply perm_skip. exact IH.
Qed.

Lemma sorted_desc_perm (l : list AnswerScore) :
  Permutation l (sorted_desc l).
Proof.
  induction l as [|x l IH]; simpl; [apply perm_nil|].
  apply perm_trans with (x :: sorted_desc l).
  - apply perm_skip. exact IH.
  - apply insert_desc_perm.
Qed.

Lemma insert_desc_sorted (x : AnswerScore) (l : list AnswerScore) :
  StronglySorted score_ge l -> StronglySorted score_ge (insert_desc x l).
Proof.
  induction 1 as [|y l Hl IH Hy]; simpl.
  - constructor; constructor.
  - destruct (score y <=? score x) eqn:E.
    + apply Z.leb_le in E.
      constructor; [constructor; assumption|].
      constructor; [exact E|].
      rewrite Forall_forall in Hy |- *.
      intros z Hz. specialize (Hy z Hz). unfold score_ge in *. lia.
    + apply Z.leb_gt in E.
      constructor; [exact IH|].
      apply (Permutation_Forall (insert_desc_perm x l)).
      constructor; [unfold score_ge; lia | exact Hy].
Qed.

Lemma sorted_desc_sorted (l : list AnswerScore) :
  StronglySorted score_ge (sorted_desc l).
Proof.
  induction l as [|x l IH]; simpl; [constructor|].
  apply insert_desc_sorted. exact IH.
Qed.

(** C6. [get_top_answers] takes every answer, or the answers of the given
    question when a question id is supplied, builds for each the row with its
    up votes, down votes and their difference as score, and returns these
    rows rearranged so that the score never increases from a row to any later
    row, with a count equal to the number of rows. *)
Theorem get_top_answers_ranked (s : Store) (question_id : option Z) :
  let chosen :=
    match question_id with
    | Some q => if q =? 0 then answers s
                else filter (fun x => answer_question_id x =? q) (answers s)
    | None => answers s
    end in
  exists rows,
    get_top_answers s question_id
    = (s, (JTop true (Z.of_nat (List.length rows)) rows, 200))
    /\ Permutation (map (score_row s) chosen) rows
    /\ StronglySorted score_ge rows
    /\ List.length rows = List.length chosen
    /\ Forall (fun r =>
                 score r = upvotes r - downvotes r
                 /\ upvotes r
                    = count (by_answer_type (as_answer_id r) "up") (votes s)
                 /\ downvotes r
                    = count (by_answer_type (as_answer_id r) "down") (votes s))
              rows.
Proof.
  cbv zeta.
  assert (Hc : candidates s question_id
               = match question_id with
                 | Some q =>
                   if q =? 0 then answers s
                   else filter (fun x => answer_question_id x =? q) (answers s)
                 | None => answers s
                 end).
  { unfold candidates, truthy_int.
    destruct question_id as [q|]; [destruct (q =? 0)|]; reflexivity. }
  rewrite <- Hc.
  exists (sorted_desc (map (score_row s) (candidates s question_id))).
  split; [reflexivity|].
  split; [apply sorted_desc_perm|].
  split; [apply sorted_desc_sorted|].
  split.
  - rewrite <- (Permutation_length (sorted_desc_perm _)).
    apply length_map.
  - apply (Permutation_Forall (sorted_desc_perm _)).
    apply Forall_forall. intros r Hr.
    apply in_map_iff in Hr. destruct Hr as (x & <- & _).
    simpl. auto.
Qed.

(** C6, as first stated, fails for a question id of 0: no answer belongs to
    question 0, yet the answer of question 3 is returned. *)
Lemma get_top_answers_zero_counterexample :
  let s := mkStore [] [mkAnswer 1 "because" 3 1 false] [] [] [] [] in
  filter (fun x => answer_question_id x =? 0) (answers s) = []
  /\ snd (get_top_answers s (Some 0))
     = (JTop true 1 [mkAnswerScore 1 3 1 "because" 0 0 0], 200).
Proof. split; reflexivity. Qed.

(** The rows of a ranking response. *)
Lemma get_top_answers_rows (s : Store) (question_id : option Z) :
  get_top_answers s question_id
  = (s, (JTop true
           (Z.of_nat (List.length
              (sorted_desc (map (score_row s) (candidates s question_id)))))
           (sorted_desc (map (score_row s) (candidates s question_id))),
         200)).
Proof. reflexivity. Qed.

Lemma score_row_ids (s : Store) (l : list Answer) :
  map as_answer_id (map (score_row s) l) = map answer_id l.
Proof. rewrite map_map. reflexivity. Qed.

(** C9. A question id of 0 is treated as no question id: the filter on the
    question is applied only for a nonzero id.  [get_top_answers] with
    [question_id = 0] returns what it returns without the argument, and
    that is a ranking of every answer in the store: its count is the number
    of stored answers, its rows carry the ids of all stored answers, each
    answer, whatever its question, has a row with its votes and score, and
    the scores do not increase.  With a nonzero question id the rows are
    those of the answers of that question only. *)
Theorem get_top_answers_zero_unfiltered (s : Store) :
  get_top_answers s (Some 0) = get_top_answers s None
  /\ (exists rows,
        get_top_answers s (Some 0)
        = (s, (JTop true (Z.of_nat (List.length (answers s))) rows, 200))
        /\ Permutation (map answer_id (answers s)) (map as_answer_id rows)
        /\ (forall x,
              In x (answers s) ->
              exists r,
                In r rows
                /\ as_answer_id r = answer_id x
                /\ as_question_id r = answer_question_id x
                /\ upvotes r
                   = count (by_answer_type (answer_id x) "up") (votes s)
                /\ downvotes r
                   = count (by_answer_type (answer_id x) "down") (votes s)
                /\ score r = upvotes r - downvotes r)
        /\ StronglySorted score_ge rows)
  /\ (forall q,
        q <> 0 ->
        exists n rows,
          get_top_answers s (Some q) = (s, (JTop true n rows, 200))
          /\ Permutation
               (map answer_id
                    (filter (fun x => answer_question_id x =? q) (answers s)))
               (map as_answer_id rows)).
Proof.
  split; [reflexivity|]. split.
  - exists (sorted_desc (map (score_row s) (answers s))).
    pose proof (sorted_desc_perm (map (score_row s) (answers s))) as Hperm.
    split.
    { rewrite get_top_answers_rows.
      change (candidates s (Some 0)) with (answers s).
      rewrite <- (Permutation_length Hperm), length_map. reflexivity. }
    split.
    { rewrite <- (score_row_ids s (answers s)).
      apply Permutation_map. exact Hperm. }
    split; [|apply sorted_desc_sorted].
    intros x Hx. exists (score_row s x).
    split; [|repeat split].
    apply (Permutation_in _ Hperm). apply in_map. exact Hx.
  - intros q Hq.
    exists (Z.of_nat (List.length
              (sorted_desc (map (score_row s) (candidates s (Some q)))))).
    exists (sorted_desc (map (score_row s) (candidates s (Some q)))).
    split; [apply get_top_answers_rows|].
    assert (Hc : candidates s (Some q)
                 = filter (fun x => answer_question_id x =? q) (answers s)).
    { unfold candidates, truthy_int.
      replace (q =? 0) with false by (symmetry; apply Z.eqb_neq; exact Hq).
      reflexivity. }
    rewrite Hc. rewrite <- (score_row_ids s).
    apply Permutation_map. apply sorted_desc_perm.
Qed.

Lemma get_top_answers_zero_unfiltered_witness :
  let s := mkStore [] [mkAnswer 1 "a" 3 6 false; mkAnswer 2 "b" 4 7 false]
                   [mkVote 1 5 2 "up"] [] [] [] in
  exists rows,
    snd (get_top_answers s (Some 0)) = (JTop true 2 rows, 200)
    /\ (exists r, In r rows /\ as_answer_id r = 1 /\ as_question_id r = 3)
    /\ (exists r, In r rows /\ as_answer_id r = 2 /\ as_question_id r = 4).
Proof.
  intros s.
  destruct (get_top_answers_zero_unfiltered s)
    as (_ & (rows & Hr & _ & Hall & _) & _).
  exists rows. split; [rewrite Hr; reflexivity|]. split.
  - destruct (Hall (mkAnswer 1 "a" 3 6 false)) as (r & Hin & H1 & H2 & _);
      [left; reflexivity|].
    exists r. auto.
  - destruct (Hall (mkAnswer 2 "b" 4 7 false)) as (r & Hin & H1 & H2 & _);
      [right; left; reflexivity|].
    exists r. auto.
Defined.

(** ** One vote per user and answer *)

Lemma by_user_answer_other (u a u' a' : Z) (v : Vote) :
  (u' =? u) && (a' =? a) = false ->
  by_user_answer u' a' v = true -> by_user_answer u a v = false.
Proof.
  unfold by_user_answer. intros Hne Hv.
  apply andb_true_iff in Hv. destruct Hv as [Hu Ha].
  apply Z.eqb_eq in Hu, Ha. rewrite Hu, Ha. exact Hne.
Qed.

Lemma by_user_answer_set (u a : Z) (t : string) (v : Vote) :
  by_user_answer u a (set_vote_type t v) = by_user_answer u a v.
Proof. reflexivity. Qed.

(** What [vote_answer] writes: nothing when a validation fails, and
    otherwise the create, delete or rewrite chosen by the stored vote. *)
Lemma vote_answer_votes (s : Store) (a : Z) (data : VoteData) :
  votes (fst (vote_answer s a data))
  = match data with
    | mkVoteData (Some u) (Some t) =>
      if negb (u =? 0) && str_in t ["up"; "down"]%string
         && found (get_answer s a) && found (get_user s u)
      then match first (by_user_answer u a) (votes s) with
           | Some v =>
             if (vote_type v =? t)%string
             then delete_first (by_user_answer u a) (votes s)
             else update_first (by_user_answer u a) (set_vote_type t) (votes s)
           | None => votes s ++ [mkVote (next_id (map vote_id (votes s))) u a t]
           end
      else votes s
    | _ => votes s
    end.
Proof.
  unfold vote_answer, truthy_int, truthy_str.
  destruct data as [[u|] [t|]]; cbn [data_user_id data_vote_type];
    try (destruct (negb _); reflexivity); try reflexivity.
  destruct (u =? 0); cbn [negb andb]; [reflexivity|].
  destruct (str_in t ["up"; "down"]%string) eqn:Hin; cbn [negb andb].
  - assert (Hne : (t =? "")%string = false).
    { destruct (t =? "")%string eqn:E; [|reflexivity].
      apply String.eqb_eq in E. subst. discriminate. }
    rewrite Hne. cbn [negb andb].
    destruct (get_answer s a); cbn [found andb]; [|reflexivity].
    destruct (get_user s u); cbn [found andb]; [|reflexivity].
    destruct (first (by_user_answer u a) (votes s)) as [v|];
      [destruct (vote_type v =? t)%string|]; reflexivity.
  - destruct (negb (t =? "")%string); reflexivity.
Qed.

Lemma remove_vote_votes (s : Store) (a : Z) (u : option Z) :
  votes (fst (remove_vote s a u))
  = match u with
    | Some uid =>
      if uid =? 0 then votes s
      else delete_first (by_user_answer uid a) (votes s)
    | None => votes s
    end.
Proof.
  unfold remove_vote, truthy_int.
  destruct u as [uid|]; [|reflexivity].
  destruct (uid =? 0); cbn [negb]; [reflexivity|].
  destruct (first (by_user_answer uid a) (votes s)) as [v|] eqn:E;
    [reflexivity|].
  simpl. unfold first in E. clear -E.
  induction (votes s) as [|x l IH]; simpl in *; [reflexivity|].
  destruct (by_user_answer uid a x); [discriminate|].
  rewrite <- IH; auto.
Qed.

Section OnePair.
Variables u a : Z.

(** The votes of the pair after one call, from the votes of the pair
    before it. *)
Lemma handle_pair_votes (s : Store) (c : Call) :
  pair_votes (fst (handle s c)) u a
  = match cast_on s u a c with
    | Some t =>
      match pair_votes s u a with
      | [] => [mkVote (next_id (map vote_id (votes s))) u a t]
      | v :: rest =>
        if (vote_type v =? t)%string then rest
        else set_vote_type t v :: rest
      end
    | None =>
      match c with
      | RemoveVote a' (Some u') =>
        if (u' =? u) && (a' =? a) && negb (u' =? 0) then tl (pair_votes s u a)
        else pair_votes s u a
      | _ => pair_votes s u a
      end
    end.
Proof.
  unfold pair_votes. destruct c as [a' data | a' u'].
  - cbn [handle]. rewrite vote_answer_votes.
    destruct data as [[w|] [t|]]; cbn [cast_on]; try reflexivity.
    destruct ((w =? u) && (a' =? a)) eqn:Hpair; cbn [andb].
    + apply andb_true_iff in Hpair. destruct Hpair as [Hw Ha].
      apply Z.eqb_eq in Hw, Ha. subst w a'.
      destruct (negb (u =? 0) && str_in t ["up"; "down"]%string
                && found (get_answer s a) && found (get_user s u));
        [|reflexivity].
      rewrite first_filter.
      destruct (filter (by_user_answer u a) (votes s)) as [|v rest] eqn:E;
        cbn [hd_error].
      * rewrite filter_app, E. simpl.
        unfold by_user_answer; simpl. rewrite !Z.eqb_refl. reflexivity.
      * destruct (vote_type v =? t)%string.
        -- rewrite filter_delete_first, E. reflexivity.
        -- rewrite filter_update_first, E; [reflexivity|].
           intros x. apply by_user_answer_set.
    + destruct (negb (w =? 0) && str_in t ["up"; "down"]%string
                && found (get_answer s a') && found (get_user s w));
        [|reflexivity].
      destruct (first (by_user_answer w a') (votes s)) as [v|];
        [destruct (vote_type v =? t)%string|].
      * apply filter_delete_first_other.
        intros x. apply by_user_answer_other. exact Hpair.
      * apply filter_update_first_other.
        -- intros x. apply by_user_answer_other. exact Hpair.
        -- intros x. apply by_user_answer_set.
      * rewrite filter_app. simpl.
        unfold by_user_answer at 2; simpl. rewrite Hpair.
        apply app_nil_r.
  - cbn [handle cast_on]. rewrite remove_vote_votes.
    destruct u' as [w|]; [|reflexivity].
    destruct (w =? 0) eqn:Hz; cbn [negb andb].
    + rewrite andb_false_r. reflexivity.
    + rewrite andb_true_r.
      destruct ((w =? u) && (a' =? a)) eqn:Hpair.
      * apply andb_true_iff in Hpair. destruct Hpair as [Hw Ha].
        apply Z.eqb_eq in Hw, Ha. subst w a'.
        apply filter_delete_first.
      * apply filter_delete_first_other.
        intros x. apply by_user_answer_other. exact Hpair.
Qed.

Lemma pair_state_head (s : Store) :
  pair_state s u a = option_map vote_type (hd_error (pair_votes s u a)).
Proof. unfold pair_state, pair_votes. rewrite first_filter. reflexivity. Qed.

Lemma tracked_step (s : Store) (c : Call) (acc : option string) :
  tracked u a s acc ->
  tracked u a (fst (handle s c))
          (match cast_on s u a c with
           | Some t => if same_state (pair_state s u a) (Some t) then acc
                       else Some t
           | None => acc
           end).
Proof.
  unfold tracked. intros [Hlen Hacc].
  rewrite handle_pair_votes, pair_state_head.
  destruct (cast_on s u a c) as [t|].
  - destruct (pair_votes s u a) as [|v rest]; cbn [hd_error option_map same_state].
    + split; [simpl; lia|].
      intros x [<-|[]]. reflexivity.
    + assert (rest = []) as ->
        by (destruct rest; [reflexivity | simpl in Hlen; lia]).
      destruct (vote_type v =? t)%string.
      * split; [simpl; lia | intros x []].
      * split; [simpl; lia|]. intros x [<-|[]]. reflexivity.
  - destruct c as [a' data | a' [w|]]; try (split; assumption).
    destruct ((w =? u) && (a' =? a) && negb (w =? 0));
      [|split; assumption].
    destruct (pair_votes s u a) as [|v rest]; simpl in *.
    + split; [lia | intros x []].
    + assert (rest = []) as -> by (destruct rest; [reflexivity | simpl in Hlen; lia]).
      split; [simpl; lia | intros x []].
Qed.

Lemma tracked_run (calls : list Call) :
  forall s acc,
    tracked u a s acc ->
    tracked u a (run s calls) (last_distinct u a s calls acc).
Proof.
  induction calls as [|c calls IH]; intros s acc H; [exact H|].
  cbn [run fold_left last_distinct].
  apply IH. apply tracked_step. exact H.
Qed.

Lemma tracked_start (s : Store) :
  count (by_user_answer u a) (votes s) <= 1 ->
  tracked u a s (pair_state s u a).
Proof.
  unfold count, tracked. fold (pair_votes s u a). intros H.
  split; [lia|].
  rewrite pair_state_head.
  destruct (pair_votes s u a) as [|v rest]; [intros x []|].
  intros x [<-|Hx]; [reflexivity|].
  destruct rest; [destruct Hx | simpl in H; lia].
Qed.
End OnePair.

Lemma run_app (s : Store) (l1 l2 : list Call) :
  run s (l1 ++ l2) = run (run s l1) l2.
Proof. unfold run. apply fold_left_app. Qed.

(** The stored vote of the pair after one call. *)
Lemma stored_step (u a : Z) (s : Store) (c : Call) :
  (List.length (pair_votes s u a) <= 1)%nat ->
  (List.length (pair_votes (fst (handle s c)) u a) <= 1)%nat
  /\ pair_state (fst (handle s c)) u a
     = match cast_on s u a c with
       | Some t =>
         if same_state (pair_state s u a) (Some t) then None else Some t
       | None =>
         match c with
         | RemoveVote a' (Some u') =>
           if (u' =? u) && (a' =? a) && negb (u' =? 0) then None
           else pair_state s u a
         | _ => pair_state s u a
         end
       end.
Proof.
  intros Hlen.
  rewrite !pair_state_head, handle_pair_votes.
  destruct (pair_votes s u a) as [|v [|w rest]]; [| |simpl in Hlen; lia];
    cbn [hd_error option_map same_state].
  - destruct (cast_on s u a c) as [t|].
    + split; [simpl; lia | reflexivity].
    + destruct c as [a' data | a' [u'|]]; try (split; [simpl; lia|reflexivity]).
      destruct ((u' =? u) && (a' =? a) && negb (u' =? 0));
        split; simpl; try lia; reflexivity.
  - destruct (cast_on s u a c) as [t|].
    + destruct (vote_type v =? t)%string;
        split; simpl; try lia; reflexivity.
    + destruct c as [a' data | a' [u'|]]; try (split; [simpl; lia|reflexivity]).
      destruct ((u' =? u) && (a' =? a) && negb (u' =? 0));
        split; simpl; try lia; reflexivity.
Qed.

Lemma stored_run (u a : Z) (calls : list Call) :
  forall s,
    (List.length (pair_votes s u a) <= 1)%nat ->
    (List.length (pair_votes (run s calls) u a) <= 1)%nat
    /\ pair_state (run s calls) u a
       = stored_after u a s calls (pair_state s u a).
Proof.
  induction calls as [|c calls IH]; intros s Hlen; [split; [exact Hlen|reflexivity]|].
  destruct (stored_step u a s c Hlen) as [Hlen' Hst].
  cbn [run fold_left stored_after].
  change (fold_left (fun st c0 => fst (handle st c0)) calls
                    (fst (handle s c)))
    with (run (fst (handle s c)) calls).
  destruct (IH _ Hlen') as [H1 H2].
  split; [exact H1|]. rewrite H2, Hst. reflexivity.
Qed.

(** C1. Take a pair of a user and an answer with at most one stored vote,
    and run any sequence of [vote_answer] and [remove_vote] requests one
    after the other.  Afterwards the pair still has at most one stored vote;
    a stored vote of the pair has the vote type that was most recently
    submitted for the pair and differed from the state stored at that moment
    (the initially stored type when no such request was made); when the
    last request repeated the stored vote type, no vote of the pair is
    stored; and when the last request submitted a type that differed from
    the stored state (no vote, or the other type), exactly one vote of the
    pair is stored and it has that type.  Call by call, the stored type is
    the one [stored_after] computes. *)
Theorem one_vote_per_pair (u a : Z) (s : Store) (calls : list Call) :
  count (by_user_answer u a) (votes s) <= 1 ->
  count (by_user_answer u a) (votes (run s calls)) <= 1
  /\ (forall v,
        In v (votes (run s calls)) ->
        vote_user_id v = u -> vote_answer_id v = a ->
        Some (vote_type v) = last_distinct u a s calls (pair_state s u a))
  /\ (forall before c t,
        calls = before ++ [c] ->
        cast_on (run s before) u a c = Some t ->
        pair_state (run s before) u a = Some t ->
        count (by_user_answer u a) (votes (run s calls)) = 0)
  /\ (forall before c t,
        calls = before ++ [c] ->
        cast_on (run s before) u a c = Some t ->
        pair_state (run s before) u a <> Some t ->
        count (by_user_answer u a) (votes (run s calls)) = 1
        /\ exists v,
             pair_votes (run s calls) u a = [v]
             /\ vote_type v = t /\ vote_user_id v = u /\ vote_answer_id v = a)
  /\ pair_state (run s calls) u a
     = stored_after u a s calls (pair_state s u a)
  /\ count (by_user_answer u a) (votes (run s calls))
     = match pair_state (run s calls) u a with
       | Some _ => 1
       | None => 0
       end.
Proof.
  intros H0.
  pose proof (tracked_run u a calls s _ (tracked_start u a s H0)) as [Hlen Hty].
  assert (Hl0 : (List.length (pair_votes s u a) <= 1)%nat)
    by (unfold count in H0; fold (pair_votes s u a) in H0; lia).
  split; [|split; [|split; [|split; [|split]]]].
  - unfold count. fold (pair_votes (run s calls) u a). lia.
  - intros v Hin Hu Ha. apply Hty.
    unfold pair_votes. apply filter_In. split; [exact Hin|].
    unfold by_user_answer. rewrite Hu, Ha, !Z.eqb_refl. reflexivity.
  - intros before c t -> Hc Hst.
    pose proof (tracked_run u a before s _ (tracked_start u a s H0))
      as [Hlen' _].
    rewrite run_app. cbn [run fold_left].
    unfold count. fold (pair_votes (fst (handle (run s before) c)) u a).
    rewrite handle_pair_votes, Hc.
    rewrite pair_state_head in Hst.
    destruct (pair_votes (run s before) u a) as [|v rest];
      [discriminate|].
    cbn [hd_error option_map] in Hst. injection Hst as Hst.
    rewrite Hst, String.eqb_refl.
    destruct rest; [reflexivity | simpl in Hlen'; lia].
  - intros before c t -> Hc Hst.
    destruct (stored_run u a before s Hl0) as [Hlen' _].
    rewrite run_app. cbn [run fold_left].
    unfold count. fold (pair_votes (fst (handle (run s before) c)) u a).
    rewrite handle_pair_votes, Hc.
    rewrite pair_state_head in Hst.
    destruct (pair_votes (run s before) u a) as [|v [|w rest]] eqn:Ev;
      [| |simpl in Hlen'; lia].
    + split; [reflexivity|]. eexists. split; [reflexivity|].
      cbn [vote_type vote_user_id vote_answer_id]. auto.
    + cbn [hd_error option_map] in Hst.
      destruct (vote_type v =? t)%string eqn:Et.
      * apply String.eqb_eq in Et. congruence.
      * split; [reflexivity|]. eexists. split; [reflexivity|].
        cbn [set_vote_type vote_type vote_user_id vote_answer_id].
        assert (Hv : In v (pair_votes (run s before) u a))
          by (rewrite Ev; left; reflexivity).
        unfold pair_votes in Hv. apply filter_In in Hv.
        destruct Hv as [_ Hv]. unfold by_user_answer in Hv.
        apply andb_true_iff in Hv. destruct Hv as [Hu Ha].
        apply Z.eqb_eq in Hu, Ha. auto.
  - apply (stored_run u a calls s Hl0).
  - rewrite pair_state_head. unfold count.
    fold (pair_votes (run s calls) u a).
    destruct (pair_votes (run s calls) u a) as [|v [|w rest]];
      [reflexivity | reflexivity | simpl in Hlen; lia].
Qed.

Lemma one_vote_per_pair_witness :
  let s := mkStore [mkUser 7 "ann" "ann@example.org" "student"]
                   [mkAnswer 4 "because" 2 7 false] [] [] [] [] in
  let up := CastVote 4 (mkVoteData (Some 7) (Some "up"%string)) in
  let down := CastVote 4 (mkVoteData (Some 7) (Some "down"%string)) in
  count (by_user_answer 7 4) (votes (run s [up; down; down; up; down])) <= 1
  /\ count (by_user_answer 7 4) (votes (run s [up; down; down])) = 0
  /\ count (by_user_answer 7 4) (votes (run s [up; down])) = 1
  /\ pair_state (run s [up; down]) 7 4 = Some "down"%string.
Proof.
  intros s up down. split; [|split; [|split]].
  - apply (one_vote_per_pair 7 4 s [up; down; down; up; down]).
    vm_compute. discriminate.
  - apply (one_vote_per_pair 7 4 s [up; down; down])
      with (before := [up; down]) (c := down) (t := "down"%string);
      [vm_compute; discriminate | reflexivity | reflexivity | reflexivity].
  - apply (proj1 (proj2 (proj2 (proj2 (one_vote_per_pair 7 4 s [up; down]
                                         ltac:(vm_compute; discriminate)))))
             [up] down "down"%string);
      [reflexivity | reflexivity | vm_compute; discriminate].
  - rewrite (proj1 (proj2 (proj2 (proj2 (proj2
               (one_vote_per_pair 7 4 s [up; down]
                  ltac:(vm_compute; discriminate))))))).
    reflexivity.
Defined.

(** ** The submission gate *)

(** The handler is its checks followed, when they all pass, by its writes. *)
Lemma submit_assignment_phases (s : Store) (clock : Clock) (form : SubmitForm) :
  submit_assignment s clock form
  = match submission_checks s (utcnow_deadline clock) form with
    | inl resp => (s, resp)
    | inr p => persist s clock p
    end.
Proof.
  unfold submit_assignment, submission_checks, persist.
  destruct (form_student_id form) as [st|]; [|reflexivity].
  destruct (form_assignment_id form) as [a|]; [|reflexivity].
  destruct (get_assignment s a) as [x|]; [|reflexivity].
  destruct (negb (is_active x)); [reflexivity|].
  destruct (due_date x) as [due|]; [|reflexivity].
  destruct (utcnow_deadline clock >? due); [reflexivity|].
  destruct (get_user s st); [|reflexivity].
  destruct (count (by_student_assignment st a) (submissions s) >=? 3);
    [reflexivity|].
  destruct (negb (truthy_str (form_content form))
            && negb (truthy_file (form_file form))); [reflexivity|].
  destruct (handle_file st a _ (form_file form)); reflexivity.
Qed.

(** *** Paths that can be written *)

Lemma has_char_app (c : ascii) (x y : string) :
  has_char c (x ++ y)%string = has_char c x || has_char c y.
Proof.
  induction x as [|d x IH]; [reflexivity|].
  simpl. rewrite IH, orb_assoc. reflexivity.
Qed.

Lemma string_of_uint_plain (d : Decimal.uint) :
  has_char "/" (NilEmpty.string_of_uint d) = false
  /\ has_char Ascii.zero (NilEmpty.string_of_uint d) = false.
Proof.
  induction d as [|d [H1 H2]|d [H1 H2]|d [H1 H2]|d [H1 H2]|d [H1 H2]
                  |d [H1 H2]|d [H1 H2]|d [H1 H2]|d [H1 H2]|d [H1 H2]];
    simpl; auto.
Qed.

(** The decimal text of an integer holds digits and a sign only. *)
Lemma str_of_int_plain (n : Z) :
  has_char "/" (str_of_int n) = false
  /\ has_char Ascii.zero (str_of_int n) = false.
Proof.
  unfold str_of_int, NilZero.string_of_int, NilZero.string_of_uint.
  destruct (Z.to_int n) as [d|d];
    destruct (string_of_uint_plain d) as [H1 H2];
    destruct d; simpl in *; auto.
Qed.

Lemma can_save_join (name : string) :
  can_save (path_join UPLOAD_DIR name)
  = negb (has_char "/" name) && negb (has_char Ascii.zero name).
Proof.
  unfold can_save, path_join, UPLOAD_DIR. reflexivity.
Qed.

(** The path [handle_file] builds can be written exactly when the name of
    the uploaded file can be part of a path. *)
Lemma handle_file_save_ok (st a k : Z) (file : option FileStorage)
    (path : option string) :
  handle_file st a k file = inr path ->
  save_ok path = file_name_ok file.
Proof.
  unfold handle_file, file_name_ok.
  destruct file as [f|]; [|cbn [truthy_file]; intros [= <-]; reflexivity].
  destruct (truthy_file (Some f)); [|intros [= <-]; reflexivity].
  destruct (negb _); [discriminate|].
  intros [= <-]. cbn [save_ok]. rewrite can_save_join.
  destruct (str_of_int_plain st) as [S1 S2].
  destruct (str_of_int_plain a) as [A1 A2].
  destruct (str_of_int_plain (k + 1)) as [K1 K2].
  repeat (simpl; rewrite !has_char_app).
  rewrite S1, S2, A1, A2, K1, K2. reflexivity.
Qed.

(** The checks agree with the ordered list of conditions: they stop at the
    first condition that fails, and pass when none does. *)
Lemma submission_checks_first_failure (s : Store) (now st a : Z)
    (form : SubmitForm) :
  form_student_id form = Some st ->
  form_assignment_id form = Some a ->
  match first_failure (gate_checks s now st a form) with
  | Some e => submission_checks s now form = inl (gate_response form e)
  | None =>
    exists path,
      submission_checks s now form
      = inr (mkPending st a
                       (count (by_student_assignment st a) (submissions s))
                       (form_content form) path)
      /\ count (by_student_assignment st a) (submissions s) < 3
      /\ save_ok path = file_name_ok (form_file form)
  end.
Proof.
  intros Hst Ha.
  unfold submission_checks, gate_checks. rewrite Hst, Ha.
  cbn [first_failure].
  destruct (get_assignment s a) as [x|]; [|reflexivity].
  destruct (is_active x); cbn [negb]; [|reflexivity].
  destruct (due_date x) as [due|]; [|reflexivity].
  rewrite Z.gtb_ltb, (Z.leb_antisym due now).
  destruct (due <? now); cbn [negb]; [reflexivity|].
  destruct (get_user s st); [|reflexivity].
  rewrite Z.geb_leb, (Z.ltb_antisym 3).
  destruct (3 <=? count (by_student_assignment st a) (submissions s)) eqn:E3;
    cbn [negb]; [reflexivity|].
  apply Z.leb_gt in E3.
  rewrite <- negb_orb.
  destruct (truthy_str (form_content form) || truthy_file (form_file form));
    cbn [negb]; [|reflexivity].
  destruct (handle_file st a _ (form_file form)) as [err|path] eqn:Hf.
  - unfold handle_file in Hf. unfold gate_response.
    destruct (form_file form) as [f|]; [|discriminate].
    destruct (truthy_file (Some f)); [|discriminate].
    destruct (str_in (file_ext (filename f)) allowed_ext); cbn [negb] in Hf;
      [discriminate|].
    injection Hf as <-. reflexivity.
  - pose proof (handle_file_save_ok _ _ _ _ _ Hf) as Hok.
    unfold handle_file in Hf.
    destruct (form_file form) as [f|].
    + destruct (truthy_file (Some f)).
      * destruct (str_in (file_ext (filename f)) allowed_ext); cbn [negb] in Hf;
          [|discriminate].
        exists path. auto.
      * exists path. auto.
    + cbn [truthy_file] in *. exists path. auto.
Qed.


Lemma create_submission_saved (s : Store) (clock : Clock) (st a k : Z)
    (text path : option string) :
  save_ok path = true ->
  exists sub msg,
    create_submission s clock st a k text path
    = (fst (create_submission s clock st a k text path),
       (JSubmitted true msg sub, 201))
    /\ submissions (fst (create_submission s clock st a k text path))
       = submissions s ++ [sub]
    /\ student_id sub = st
    /\ sub_assignment_id sub = a
    /\ content sub = text.
Proof.
  intros Hok. unfold create_submission. rewrite Hok. cbn [fst].
  eexists; eexists. repeat split.
Qed.

Lemma create_submission_unsaved (s : Store) (clock : Clock) (st a k : Z)
    (text path : option string) :
  save_ok path = false ->
  create_submission s clock st a k text path = (s, (JServerError, 500)).
Proof. intros Hok. unfold create_submission. rewrite Hok. reflexivity. Qed.

(** The answer of the handler, from the first condition that fails; when
    none fails, from whether the file can be saved. *)
Lemma submit_assignment_first_failure (s : Store) (clock : Clock)
    (form : SubmitForm) (st a : Z) :
  form_student_id form = Some st ->
  form_assignment_id form = Some a ->
  match first_failure (gate_checks s (utcnow_deadline clock) st a form) with
  | Some e => submit_assignment s clock form = (s, gate_response form e)
  | None =>
    if file_name_ok (form_file form)
    then
      exists sub msg,
        snd (submit_assignment s clock form) = (JSubmitted true msg sub, 201)
        /\ submissions (fst (submit_assignment s clock form))
           = submissions s ++ [sub]
        /\ student_id sub = st
        /\ sub_assignment_id sub = a
        /\ content sub = form_content form
    else submit_assignment s clock form = (s, (JServerError, 500))
  end.
Proof.
  intros Hst Ha.
  pose proof (submission_checks_first_failure s (utcnow_deadline clock) st a
                form Hst Ha) as Hchk.
  rewrite submit_assignment_phases.
  destruct (first_failure _) as [e|].
  - rewrite Hchk. reflexivity.
  - destruct Hchk as (path & -> & _ & Hok).
    unfold persist.
    cbn [pending_student_id pending_assignment_id pending_attempts
         pending_content pending_path].
    rewrite <- Hok.
    destruct (save_ok path) eqn:E.
    + destruct (create_submission_saved s clock st a
                  (count (by_student_assignment st a) (submissions s))
                  (form_content form) path E)
        as (sub & msg & Hp & Hs & H1 & H2 & H3).
      exists sub, msg. rewrite Hp at 1. auto.
    + apply create_submission_unsaved. exact E.
Qed.



(** C3. The request that every check lets through and that stores nothing:
    student 5 submits the file "a/b.pdf" for assignment 9 before the due
    date.  None of the eight conditions fails, yet the path built from the
    name lies in a directory that does not exist, the save raises, the
    answer is 500 and no submission is stored.  The same request with the
    name "b.pdf" is answered 201 and stores one. *)
Theorem submit_assignment_unsaved_file :
  first_failure (gate_checks (gate_store 0) 50 5 9 (file_form "a/b.pdf"))
  = None
  /\ file_ext "a/b.pdf" = "pdf"%string
  /\ submit_assignment (gate_store 0) (clock_at 50) (file_form "a/b.pdf")
     = (gate_store 0, (JServerError, 500))
  /\ snd (snd (submit_assignment (gate_store 0) (clock_at 50)
                                 (file_form "b.pdf"))) = 201
  /\ List.length
       (submissions (fst (submit_assignment (gate_store 0) (clock_at 50)
                                            (file_form "b.pdf")))) = 1%nat.
Proof. repeat split. Qed.

(** *** The attempt limit *)

Lemma count_app {A : Type} (p : A -> bool) (l : list A) (x : A) :
  count p (l ++ [x]) = count p l + (if p x then 1 else 0).
Proof.
  unfold count. rewrite filter_app, length_app. simpl.
  destruct (p x); simpl; lia.
Qed.

(** One request never takes the attempts of a pair above three. *)
Lemma submit_assignment_cap (st a : Z) (s : Store) (clock : Clock)
    (form : SubmitForm) :
  count (by_student_assignment st a) (submissions s) <= 3 ->
  count (by_student_assignment st a)
        (submissions (fst (submit_assignment s clock form))) <= 3.
Proof.
  intros H. rewrite submit_assignment_phases.
  destruct (form_student_id form) as [st'|] eqn:Hst;
    [destruct (form_assignment_id form) as [a'|] eqn:Ha|].
  - pose proof (submission_checks_first_failure s (utcnow_deadline clock)
                  st' a' form Hst Ha) as Hchk.
    destruct (first_failure _) as [e|].
    + rewrite Hchk. exact H.
    + destruct Hchk as (path & -> & Hlt & _).
      unfold persist, create_submission.
      cbn [pending_path].
      destruct (save_ok path); [|exact H].
      cbn [fst submissions pending_student_id pending_assignment_id].
      rewrite count_app.
      unfold by_student_assignment at 2.
      cbn [student_id sub_assignment_id].
      destruct ((st' =? st) && (a' =? a)) eqn:Hpair; [|lia].
      apply andb_true_iff in Hpair. destruct Hpair as [E1 E2].
      apply Z.eqb_eq in E1, E2. subst. lia.
  - unfold submission_checks. rewrite Hst, Ha. exact H.
  - unfold submission_checks. rewrite Hst. exact H.
Qed.

(** C4, as first stated, fails when an earlier condition fails too: with
    three stored attempts and the deadline passed the answer is the deadline
    error, not the attempt-limit error. *)
Lemma attempt_limit_counterexample :
  3 <= count (by_student_assignment 5 9) (submissions (gate_store 3))
  /\ snd (submit_assignment (gate_store 3) (clock_at 200) text_form)
     = gate_response text_form PAST_DEADLINE
  /\ snd (submit_assignment (gate_store 3) (clock_at 200) text_form)
     <> gate_response text_form ATTEMPT_LIMIT_REACHED.
Proof.
  split; [vm_compute; discriminate|].
  split; [reflexivity | discriminate].
Qed.

(** C4. When three or more submissions of a student for an assignment are
    stored, [submit_assignment] creates no submission for that request,
    whatever its content and file, and when the five earlier conditions pass
    (the assignment exists, is active, has a due date that has not passed,
    and the student exists) it answers with the attempt-limit error.  Hence
    requests served one after the other, starting with at most three stored
    submissions of the pair, never leave more than three. *)
Theorem attempt_limit (st a : Z) (s : Store) :
  (forall clock form,
     form_student_id form = Some st ->
     form_assignment_id form = Some a ->
     3 <= count (by_student_assignment st a) (submissions s) ->
     fst (submit_assignment s clock form) = s
     /\ forall x due,
          get_assignment s a = Some x ->
          is_active x = true ->
          due_date x = Some due ->
          utcnow_deadline clock <= due ->
          get_user s st <> None ->
          snd (submit_assignment s clock form)
          = gate_response form ATTEMPT_LIMIT_REACHED)
  /\ (forall reqs,
        count (by_student_assignment st a) (submissions s) <= 3 ->
        count (by_student_assignment st a)
              (submissions (submit_all s reqs)) <= 3).
Proof.
  split.
  - intros clock form Hst Ha H3.
    pose proof (submit_assignment_first_failure s clock form st a Hst Ha)
      as Hmain.
    assert (Hlt : (count (by_student_assignment st a) (submissions s) <? 3)
                  = false) by (apply Z.ltb_ge; exact H3).
    split.
    + destruct (first_failure _) as [e|] eqn:E; [rewrite Hmain; reflexivity|].
      exfalso. unfold gate_checks in E. cbn [first_failure] in E.
      rewrite Hlt in E.
      repeat match type of E with
             | (if ?b then _ else _) = _ => destruct b; try discriminate
             end.
    + intros x due Hx Hact Hdue Hnow Huser.
      unfold gate_checks in Hmain.
      rewrite Hx, Hact, Hdue, Hlt in Hmain.
      apply Z.leb_le in Hnow. rewrite Hnow in Hmain.
      destruct (get_user s st); [|contradiction].
      cbn [first_failure] in Hmain. rewrite Hmain. reflexivity.
  - intros reqs. revert s.
    induction reqs as [|[clock form] reqs IH]; intros s H; [exact H|].
    cbn [submit_all fold_left fst snd]. apply IH.
    apply submit_assignment_cap. exact H.
Qed.

Lemma attempt_limit_witness :
  submit_assignment (gate_store 3) (clock_at 50) (file_form "essay.pdf")
  = (gate_store 3, gate_response (file_form "essay.pdf") ATTEMPT_LIMIT_REACHED)
  /\ count (by_student_assignment 5 9)
           (submissions
              (submit_all (gate_store 2)
                          [(clock_at 50, text_form); (clock_at 60, text_form);
                           (clock_at 70, file_form "essay.pdf")])) <= 3.
Proof.
  split.
  - destruct (proj1 (attempt_limit 5 9 (gate_store 3)) (clock_at 50)
                (file_form "essay.pdf") eq_refl eq_refl) as [Hs Hr].
    + vm_compute. discriminate.
    + rewrite (surjective_pairing (submit_assignment _ _ _)), Hs.
      rewrite (Hr (mkAssignment 9 "Essay" (Some 100) true 1 10) 100);
        [reflexivity | reflexivity | reflexivity | reflexivity
         | simpl; lia | discriminate].
  - apply (proj2 (attempt_limit 5 9 (gate_store 2))).
    vm_compute. discriminate.
Defined.

(** C7. A rejected submission request changes nothing: whichever of the
    eight conditions fails first, and also when an id is missing, the store
    after the request is the store before it.  The store changes only when
    every condition passed, and then the answer has status 201. *)
Theorem submit_assignment_atomic (s : Store) (clock : Clock)
    (form : SubmitForm) :
  (forall st a e,
     form_student_id form = Some st ->
     form_assignment_id form = Some a ->
     first_failure (gate_checks s (utcnow_deadline clock) st a form) = Some e ->
     submit_assignment s clock form = (s, gate_response form e))
  /\ (snd (snd (submit_assignment s clock form)) <> 201 ->
      fst (submit_assignment s clock form) = s)
  /\ (fst (submit_assignment s clock form) <> s ->
      snd (snd (submit_assignment s clock form)) = 201
      /\ exists st a,
           form_student_id form = Some st
           /\ form_assignment_id form = Some a
           /\ first_failure
                (gate_checks s (utcnow_deadline clock) st a form) = None).
Proof.
  assert (Hcases :
    fst (submit_assignment s clock form) = s
    \/ (snd (snd (submit_assignment s clock form)) = 201
        /\ exists st a,
             form_student_id form = Some st
             /\ form_assignment_id form = Some a
             /\ first_failure
                  (gate_checks s (utcnow_deadline clock) st a form) = None)).
  { destruct (form_student_id form) as [st|] eqn:Hst;
      [destruct (form_assignment_id form) as [a|] eqn:Ha|].
    - pose proof (submit_assignment_first_failure s clock form st a Hst Ha)
        as Hmain.
      destruct (first_failure _) as [e|] eqn:E.
      + left. rewrite Hmain. reflexivity.
      + destruct (file_name_ok (form_file form)).
        * right. destruct Hmain as (sub & msg & -> & _).
          split; [reflexivity|]. exists st, a. auto.
        * left. rewrite Hmain. reflexivity.
    - left. unfold submit_assignment. rewrite Hst, Ha. reflexivity.
    - left. unfold submit_assignment. rewrite Hst. reflexivity. }
  split; [|split].
  - intros st a e Hst Ha E.
    pose proof (submit_assignment_first_failure s clock form st a Hst Ha)
      as Hmain.
    rewrite E in Hmain. exact Hmain.
  - intros Hne. destruct Hcases as [H|[H _]]; [exact H | contradiction].
  - intros Hne. destruct Hcases as [H|H]; [contradiction | exact H].
Qed.

Lemma submit_assignment_atomic_witness :
  submit_assignment (gate_store 1) (clock_at 50) (file_form "notes.exe")
  = (gate_store 1, (JError "Invalid file type: exe", 400)).
Proof.
  exact (proj1 (submit_assignment_atomic (gate_store 1) (clock_at 50)
                  (file_form "notes.exe"))
               5 9 INVALID_FILE_TYPE eq_refl eq_refl eq_refl).
Defined.

(** C8. Two requests of a student with two stored attempts, both past their
    checks before either writes, are both accepted and leave four stored
    attempts; served one after the other, the second is refused and three
    are stored. *)
Theorem submit_race_exceeds_cap :
  let r1 := mkRequest (clock_at 50) text_form Waiting in
  let r2 := mkRequest (clock_at 50) (file_form "essay.pdf") Waiting in
  let racing := interleave [true; false; true; false] (gate_store 2) r1 r2 in
  let in_turn := interleave [true; true; false; false] (gate_store 2) r1 r2 in
  count (by_student_assignment 5 9) (submissions (gate_store 2)) = 2
  /\ (answered_status (snd (fst racing)) = Some 201
      /\ answered_status (snd racing) = Some 201
      /\ count (by_student_assignment 5 9) (submissions (fst (fst racing)))
         = 4)
  /\ (answered_status (snd (fst in_turn)) = Some 201
      /\ req_progress (snd in_turn)
         = Answered (gate_response (file_form "essay.pdf")
                                   ATTEMPT_LIMIT_REACHED)
      /\ count (by_student_assignment 5 9) (submissions (fst (fst in_turn)))
         = 3).
Proof. vm_compute. repeat split. Qed.

(** One request stepped twice on its own is the handler. *)
Lemma step_twice (s : Store) (clock : Clock) (form : SubmitForm) :
  let '(s1, r1) := step s (mkRequest clock form Waiting) in
  let '(s2, r2) := step s1 r1 in
  (s2, req_progress r2)
  = (fst (submit_assignment s clock form),
     Answered (snd (submit_assignment s clock form))).
Proof.
  rewrite submit_assignment_phases.
  unfold step. cbn [req_progress req_clock req_form].
  destruct (submission_checks s (utcnow_deadline clock) form) as [resp|p].
  - reflexivity.
  - cbn [req_progress req_clock]. destruct (persist s clock p). reflexivity.
Qed.

(** ** File extensions *)

Lemma split_on_nonempty (sep : ascii) (s : string) : split_on sep s <> [].
Proof.
  destruct s as [|c s]; simpl; [discriminate|].
  destruct (Ascii.eqb c sep); [discriminate|].
  destruct (split_on sep s); discriminate.
Qed.







(** * Further properties of the views *)

(** ** Counting over tables *)

Lemma count_append {A : Type} (p : A -> bool) (l1 l2 : list A) :
  count p (l1 ++ l2) = count p l1 + count p l2.
Proof. unfold count. rewrite filter_app, length_app. lia. Qed.

Lemma count_cons {A : Type} (p : A -> bool) (x : A) (l : list A) :
  count p (x :: l) = (if p x then 1 else 0) + count p l.
Proof.
  unfold count. cbn [filter].
  destruct (p x); cbn [List.length]; lia.
Qed.

Lemma count_nonneg {A : Type} (p : A -> bool) (l : list A) : 0 <= count p l.
Proof. unfold count. lia. Qed.

Lemma first_update_first {A : Type} (p : A -> bool) (f : A -> A) (l : list A) :
  (forall x, p (f x) = p x) ->
  first p (update_first p f l) = option_map f (first p l).
Proof.
  intros Hf. unfold first.
  induction l as [|x l IH]; simpl; [reflexivity|].
  destruct (p x) eqn:E; simpl.
  - rewrite Hf, E. reflexivity.
  - rewrite E. exact IH.
Qed.

Lemma update_first_twice {A : Type} (p : A -> bool) (f g : A -> A)
    (l : list A) :
  (forall x, p (f x) = p x) ->
  update_first p g (update_first p f l)
  = update_first p (fun x => g (f x)) l.
Proof.
  intros Hf.
  induction l as [|x l IH]; simpl; [reflexivity|].
  destruct (p x) eqn:E; simpl.
  - rewrite Hf, E. reflexivity.
  - rewrite E, IH. reflexivity.
Qed.

Lemma update_first_same {A : Type} (p : A -> bool) (f : A -> A) (l : list A)
    (v : A) :
  first p l = Some v -> f v = v -> update_first p f l = l.
Proof.
  unfold first.
  induction l as [|x l IH]; simpl; [reflexivity|].
  destruct (p x).
  - intros [= ->] ->. reflexivity.
  - intros H Hv. rewrite (IH H Hv). reflexivity.
Qed.

Lemma delete_first_appended {A : Type} (p : A -> bool) (l : list A) (x : A) :
  first p l = None -> p x = true -> delete_first p (l ++ [x]) = l.
Proof.
  unfold first. intros Hl Hx.
  induction l as [|y l IH]; simpl in *.
  - rewrite Hx. reflexivity.
  - destruct (p y); [discriminate|]. rewrite (IH Hl). reflexivity.
Qed.

Lemma first_appended {A : Type} (p : A -> bool) (l : list A) (x : A) :
  first p l = None -> p x = true -> first p (l ++ [x]) = Some x.
Proof.
  unfold first. intros Hl Hx.
  induction l as [|y l IH]; simpl in *.
  - rewrite Hx. reflexivity.
  - destruct (p y); [discriminate|]. exact (IH Hl).
Qed.

Lemma with_votes_same (s : Store) : with_votes s (votes s) = s.
Proof. destruct s; reflexivity. Qed.

Lemma with_votes_twice (s : Store) (l1 l2 : list Vote) :
  with_votes (with_votes s l1) l2 = with_votes s l2.
Proof. reflexivity. Qed.

(** ** Vote requests: rejections and round trips *)

(** What [vote_answer] does to a request that passes its validations. *)
Lemma vote_answer_accepted (s : Store) (a u : Z) (t : string) :
  u <> 0 ->
  str_in t ["up"; "down"]%string = true ->
  get_answer s a <> None ->
  get_user s u <> None ->
  vote_answer s a (mkVoteData (Some u) (Some t))
  = match first (by_user_answer u a) (votes s) with
    | Some v =>
      if (vote_type v =? t)%string
      then (with_votes s (delete_first (by_user_answer u a) (votes s)),
            vote_removed t)
      else (with_votes s (update_first (by_user_answer u a)
                                       (set_vote_type t) (votes s)),
            vote_switched t)
    | None =>
      (with_votes s (votes s ++ [mkVote (next_id (map vote_id (votes s))) u a t]),
       vote_created t)
    end.
Proof.
  intros Hu Hin Ha Hus.
  assert (Hne : (t =? "")%string = false).
  { destruct (t =? "")%string eqn:E; [|reflexivity].
    apply String.eqb_eq in E. subst. discriminate. }
  unfold vote_answer, truthy_int, truthy_str.
  cbn [data_user_id data_vote_type].
  replace (u =? 0) with false by (symmetry; apply Z.eqb_neq; exact Hu).
  rewrite Hne, Hin. cbn [negb andb].
  destruct (get_answer s a); [|contradiction].
  destruct (get_user s u); [|contradiction].
  reflexivity.
Qed.

(** X1. A vote request is answered 200, 201, 400 or 404, and a request
    answered 400 or 404 leaves the store as it was.  An unknown answer is
    reported before an unknown user: when both are unknown the answer is
    "Answer not found". *)
Theorem vote_answer_rejected_unchanged (s : Store) (a : Z) (data : VoteData) :
  (snd (snd (vote_answer s a data)) = 200
   \/ snd (snd (vote_answer s a data)) = 201
   \/ (fst (vote_answer s a data) = s
       /\ (snd (snd (vote_answer s a data)) = 400
           \/ snd (snd (vote_answer s a data)) = 404)))
  /\ (forall u t,
        data = mkVoteData (Some u) (Some t) ->
        u <> 0 ->
        str_in t ["up"; "down"]%string = true ->
        get_answer s a = None ->
        vote_answer s a data = (s, (JError "Answer not found", 404))).
Proof.
  split.
  - unfold vote_answer.
    destruct (negb _); [right; right; simpl; auto|].
    destruct (data_user_id data) as [u|]; [|right; right; simpl; auto].
    destruct (data_vote_type data) as [t|]; [|right; right; simpl; auto].
    destruct (negb _); [right; right; simpl; auto|].
    destruct (get_answer s a); [|right; right; simpl; auto].
    destruct (get_user s u); [|right; right; simpl; auto].
    destruct (first _ _) as [v|]; [destruct (_ =? _)%string|]; simpl; auto.
  - intros u t -> Hu Hin Ha.
    assert (Hne : (t =? "")%string = false).
    { destruct (t =? "")%string eqn:E; [|reflexivity].
      apply String.eqb_eq in E. subst. discriminate. }
    unfold vote_answer, truthy_int, truthy_str.
    cbn [data_user_id data_vote_type].
    replace (u =? 0) with false by (symmetry; apply Z.eqb_neq; exact Hu).
    rewrite Hne, Hin, Ha. reflexivity.
Qed.

Lemma vote_answer_rejected_unchanged_witness :
  vote_answer (mkStore [] [] [mkVote 1 7 4 "up"] [] [] []) 4
              (mkVoteData (Some 7) (Some "down"%string))
  = (mkStore [] [] [mkVote 1 7 4 "up"] [] [] [],
     (JError "Answer not found", 404)).
Proof.
  apply (proj2 (vote_answer_rejected_unchanged
                  (mkStore [] [] [mkVote 1 7 4 "up"] [] [] []) 4
                  (mkVoteData (Some 7) (Some "down"%string)))
               7 "down"%string);
    [reflexivity | lia | reflexivity | reflexivity].
Defined.

(** X2. [remove_vote] answers 400 without a user id (or with 0) and 404
    when the user has no vote on the answer, changing nothing.  Otherwise it
    answers 200, the votes of that user on that answer are one fewer, the
    votes of every other user-answer pair are the same rows as before, and
    no other table changes. *)
Theorem remove_vote_effect (s : Store) (a : Z) (u : option Z) :
  (truthy_int u = false ->
   remove_vote s a u = (s, (JError "user_id is required", 400)))
  /\ (forall uid,
        u = Some uid -> uid <> 0 ->
        (count (by_user_answer uid a) (votes s) = 0 ->
         remove_vote s a u = (s, (JError "No vote found for this user", 404)))
        /\ (0 < count (by_user_answer uid a) (votes s) ->
            snd (remove_vote s a u)
            = (JMessage "Vote removed successfully", 200)
            /\ count (by_user_answer uid a) (votes (fst (remove_vote s a u)))
               = count (by_user_answer uid a) (votes s) - 1
            /\ (forall u' a',
                  (u' =? uid) && (a' =? a) = false ->
                  pair_votes (fst (remove_vote s a u)) u' a'
                  = pair_votes s u' a')
            /\ users (fst (remove_vote s a u)) = users s
            /\ answers (fst (remove_vote s a u)) = answers s
            /\ assignments (fst (remove_vote s a u)) = assignments s
            /\ submissions (fst (remove_vote s a u)) = submissions s
            /\ saved_files (fst (remove_vote s a u)) = saved_files s)).
Proof.
  split.
  - intros H. unfold remove_vote. rewrite H. reflexivity.
  - intros uid -> Hne.
    assert (Hz : (uid =? 0) = false) by (apply Z.eqb_neq; exact Hne).
    unfold remove_vote, truthy_int. rewrite Hz. cbn [negb].
    rewrite first_filter. unfold count.
    destruct (first (by_user_answer uid a) (votes s)) as [v|] eqn:E;
      rewrite first_filter in E;
      destruct (filter (by_user_answer uid a) (votes s)) as [|w rest] eqn:F;
      try discriminate; cbn [hd_error].
    + split; [simpl; lia|]. intros _. cbn [fst snd votes with_votes].
      split; [reflexivity|]. split.
      * rewrite filter_delete_first, F. cbn [tl List.length]. lia.
      * split; [|repeat split].
        intros u' a' Hother. unfold pair_votes.
        apply filter_delete_first_other.
        intros x Hx. apply (by_user_answer_other u' a' uid a).
        -- rewrite Z.eqb_sym, (Z.eqb_sym a a'). exact Hother.
        -- exact Hx.
    + split; [reflexivity | simpl; lia].
Qed.

Lemma remove_vote_effect_witness :
  let s := mkStore [] [] [mkVote 1 7 4 "up"; mkVote 2 8 4 "down"] [] [] [] in
  votes (fst (remove_vote s 4 (Some 8))) = [mkVote 1 7 4 "up"]
  /\ remove_vote s 4 (Some 9)
     = (s, (JError "No vote found for this user", 404)).
Proof.
  intros s.
  destruct (proj2 (remove_vote_effect s 4 (Some 8)) 8 eq_refl) as [_ H8];
    [lia|].
  destruct (proj2 (remove_vote_effect s 4 (Some 9)) 9 eq_refl) as [H9 _];
    [lia|].
  split.
  - destruct H8 as (_ & _ & Hother & _); [vm_compute; reflexivity|].
    specialize (Hother 7 4 eq_refl). vm_compute in Hother. vm_compute.
    reflexivity.
  - apply H9. reflexivity.
Defined.

(** X3. Voting twice in a row with the same vote type, by a user who had no
    vote on the answer, restores the store: the first request is answered
    "created", the second "removed", and the store after both is the store
    before them.  Removing the vote with [remove_vote] instead of the second
    request restores the store as well. *)
Theorem vote_twice_restores (s : Store) (a u : Z) (t : string) :
  u <> 0 ->
  (t = "up" \/ t = "down")%string ->
  get_user s u <> None ->
  get_answer s a <> None ->
  first (by_user_answer u a) (votes s) = None ->
  let data := mkVoteData (Some u) (Some t) in
  let s1 := fst (vote_answer s a data) in
  snd (vote_answer s a data) = vote_created t
  /\ vote_answer s1 a data = (s, vote_removed t)
  /\ remove_vote s1 a (Some u)
     = (s, (JMessage "Vote removed successfully", 200)).
Proof.
  intros Hu Ht Huser Hans Hnone data s1.
  assert (Hin : str_in t ["up"; "down"]%string = true)
    by (destruct Ht; subst; reflexivity).
  pose proof (vote_answer_accepted s a u t Hu Hin Hans Huser) as H1.
  rewrite Hnone in H1.
  assert (Hs1 : s1 = with_votes s
                       (votes s ++ [mkVote (next_id (map vote_id (votes s))) u a t]))
    by (unfold s1, data; rewrite H1; reflexivity).
  assert (Hp : by_user_answer u a
                 (mkVote (next_id (map vote_id (votes s))) u a t) = true)
    by (unfold by_user_answer; simpl; rewrite !Z.eqb_refl; reflexivity).
  split; [unfold data; rewrite H1; reflexivity|].
  split.
  - unfold data. rewrite vote_answer_accepted; auto; rewrite Hs1; auto.
    cbn [votes with_votes].
    rewrite (first_appended _ _ _ Hnone Hp). cbn [vote_type].
    rewrite String.eqb_refl.
    rewrite (delete_first_appended _ _ _ Hnone Hp), with_votes_twice.
    rewrite with_votes_same. reflexivity.
  - rewrite Hs1. unfold remove_vote, truthy_int.
    replace (u =? 0) with false by (symmetry; apply Z.eqb_neq; exact Hu).
    cbn [negb votes with_votes].
    rewrite (first_appended _ _ _ Hnone Hp).
    rewrite (delete_first_appended _ _ _ Hnone Hp), with_votes_twice.
    rewrite with_votes_same. reflexivity.
Qed.

Lemma vote_twice_restores_witness :
  let s := mkStore [mkUser 7 "ann" "ann@example.org" "student"]
                   [mkAnswer 4 "because" 2 7 false]
                   [mkVote 1 8 4 "down"] [] [] [] in
  vote_answer (fst (vote_answer s 4 (mkVoteData (Some 7) (Some "up"%string))))
              4 (mkVoteData (Some 7) (Some "up"%string))
  = (s, vote_removed "up").
Proof.
  intros s.
  apply (vote_twice_restores s 4 7 "up");
    [lia | left; reflexivity | discriminate | discriminate | reflexivity].
Defined.

Lemma set_vote_type_back (t : string) (v : Vote) :
  set_vote_type (vote_type v) (set_vote_type t v) = v.
Proof. destruct v; reflexivity. Qed.

(** X4. Switching a vote and switching it back restores the store: for a
    user whose stored vote on the answer is "up" (or "down"), a request with
    the other type followed by a request with the stored type are both
    answered "switched" and leave the store as it was. *)
Theorem switch_back_restores (s : Store) (a u : Z) (t t0 : string) (v : Vote) :
  u <> 0 ->
  (t = "up" \/ t = "down")%string ->
  (t0 = "up" \/ t0 = "down")%string ->
  t <> t0 ->
  get_user s u <> None ->
  get_answer s a <> None ->
  first (by_user_answer u a) (votes s) = Some v ->
  vote_type v = t0 ->
  let s1 := fst (vote_answer s a (mkVoteData (Some u) (Some t))) in
  snd (vote_answer s a (mkVoteData (Some u) (Some t))) = vote_switched t
  /\ vote_answer s1 a (mkVoteData (Some u) (Some t0)) = (s, vote_switched t0).
Proof.
  intros Hu Ht Ht0 Hne Huser Hans Hv Hty s1.
  assert (Hin : str_in t ["up"; "down"]%string = true)
    by (destruct Ht; subst; reflexivity).
  assert (Hin0 : str_in t0 ["up"; "down"]%string = true)
    by (destruct Ht0 as [E|E]; rewrite E; reflexivity).
  pose proof (vote_answer_accepted s a u t Hu Hin Hans Huser) as H1.
  rewrite Hv, Hty in H1.
  assert (E1 : (t0 =? t)%string = false)
    by (apply String.eqb_neq; congruence).
  rewrite E1 in H1.
  assert (Hs1 : s1 = with_votes s (update_first (by_user_answer u a)
                                     (set_vote_type t) (votes s)))
    by (unfold s1; rewrite H1; reflexivity).
  split; [rewrite H1; reflexivity|].
  rewrite vote_answer_accepted; auto; rewrite Hs1; auto.
  cbn [votes with_votes].
  rewrite first_update_first by (intros x; apply by_user_answer_set).
  rewrite Hv. cbn [option_map set_vote_type vote_type].
  assert (E2 : (t =? t0)%string = false)
    by (apply String.eqb_neq; exact Hne).
  rewrite E2.
  rewrite update_first_twice by (intros x; apply by_user_answer_set).
  rewrite with_votes_twice.
  rewrite (update_first_same _ _ _ v Hv).
  - rewrite with_votes_same. reflexivity.
  - rewrite <- Hty. apply set_vote_type_back.
Qed.

Lemma switch_back_restores_witness :
  let s := mkStore [mkUser 7 "ann" "ann@example.org" "student"]
                   [mkAnswer 4 "because" 2 7 false]
                   [mkVote 1 8 4 "down"; mkVote 2 7 4 "up"] [] [] [] in
  vote_answer
    (fst (vote_answer s 4 (mkVoteData (Some 7) (Some "down"%string))))
    4 (mkVoteData (Some 7) (Some "up"%string))
  = (s, vote_switched "up").
Proof.
  intros s.
  apply (switch_back_restores s 4 7 "down" "up" (mkVote 2 7 4 "up"));
    [lia | right; reflexivity | left; reflexivity | discriminate
     | discriminate | discriminate | reflexivity | reflexivity].
Defined.

(** ** Votes and tallies *)

Lemma count_delete_first {A : Type} (p q : A -> bool) (l : list A) (v : A) :
  first p l = Some v ->
  count q (delete_first p l) = count q l - (if q v then 1 else 0).
Proof.
  intros H.
  destruct (first_split p (fun x => x) l v H)
    as (before & after & -> & _ & _ & -> & _).
  rewrite !count_append, count_cons. lia.
Qed.

Lemma count_update_first {A : Type} (p q : A -> bool) (f : A -> A)
    (l : list A) (v : A) :
  first p l = Some v ->
  count q (update_first p f l)
  = count q l - (if q v then 1 else 0) + (if q (f v) then 1 else 0).
Proof.
  intros H.
  destruct (first_split p f l v H)
    as (before & after & -> & _ & _ & _ & ->).
  rewrite !count_append, !count_cons. lia.
Qed.

Lemma first_by_user_answer (u a : Z) (l : list Vote) (v : Vote) :
  first (by_user_answer u a) l = Some v ->
  vote_user_id v = u /\ vote_answer_id v = a.
Proof.
  intros H. apply find_some in H. destruct H as [_ H].
  unfold by_user_answer in H. apply andb_true_iff in H.
  destruct H as [H1 H2]. apply Z.eqb_eq in H1, H2. auto.
Qed.

(** X5. How an accepted vote request changes the tallies.  For every answer
    [b] and vote type [x], the number of votes of type [x] on [b] grows by
    one when [b] is the answer voted on and [x] the submitted type, unless
    the request toggles the vote off, and shrinks by one when [b] is the
    answer voted on and [x] the type the user had stored.  So a new "up"
    vote adds one up vote, a repeated one takes it away, a switch moves one
    vote from one count to the other, and the tallies of all other answers
    stay as they are. *)
Theorem vote_answer_tally (s : Store) (a u : Z) (t : string) :
  u <> 0 ->
  (t = "up" \/ t = "down")%string ->
  get_user s u <> None ->
  get_answer s a <> None ->
  forall b x,
    count (by_answer_type b x)
          (votes (fst (vote_answer s a (mkVoteData (Some u) (Some t)))))
    = count (by_answer_type b x) (votes s)
      + (if (a =? b) && (t =? x)%string
            && negb (same_state (pair_state s u a) (Some t))
         then 1 else 0)
      - (if (a =? b) && same_state (pair_state s u a) (Some x)
         then 1 else 0).
Proof.
  intros Hu Ht Huser Hans b x.
  assert (Hin : str_in t ["up"; "down"]%string = true)
    by (destruct Ht; subst; reflexivity).
  rewrite (vote_answer_accepted s a u t Hu Hin Hans Huser).
  unfold pair_state.
  destruct (first (by_user_answer u a) (votes s)) as [v|] eqn:E;
    cbn [option_map same_state].
  - destruct (first_by_user_answer _ _ _ _ E) as [_ Hva].
    destruct (vote_type v =? t)%string eqn:Et; cbn [fst votes with_votes negb].
    + apply String.eqb_eq in Et.
      rewrite (count_delete_first _ _ _ _ E).
      unfold by_answer_type. rewrite Hva, Et, andb_false_r. lia.
    + rewrite (count_update_first _ _ _ _ _ E).
      unfold by_answer_type. cbn [set_vote_type vote_answer_id vote_type].
      rewrite Hva, andb_true_r. lia.
  - cbn [fst votes with_votes negb].
    rewrite count_append, count_cons.
    unfold by_answer_type at 2. cbn [vote_answer_id vote_type].
    rewrite andb_true_r, andb_false_r.
    change (count (by_answer_type b x) []) with 0. lia.
Qed.

Lemma vote_answer_tally_witness :
  let s := mkStore [mkUser 7 "ann" "ann@example.org" "student"]
                   [mkAnswer 4 "because" 2 7 false]
                   [mkVote 1 8 4 "down"; mkVote 2 7 4 "up"] [] [] [] in
  let s1 := fst (vote_answer s 4 (mkVoteData (Some 7) (Some "down"%string))) in
  count (by_answer_type 4 "up") (votes s1) = 0
  /\ count (by_answer_type 4 "down") (votes s1) = 2.
Proof.
  intros s s1. unfold s1. split.
  - rewrite (vote_answer_tally s 4 7 "down");
      [reflexivity | lia | right; reflexivity | discriminate | discriminate].
  - rewrite (vote_answer_tally s 4 7 "down");
      [reflexivity | lia | right; reflexivity | discriminate | discriminate].
Defined.

(** ** Ranking: ties, the best answer, agreement with the tally *)

Lemma insert_desc_keeps_order (k : Z) (x : AnswerScore)
    (l : list AnswerScore) :
  filter (fun r => score r =? k) (insert_desc x l)
  = filter (fun r => score r =? k) (x :: l).
Proof.
  induction l as [|y l IH]; [reflexivity|].
  cbn [insert_desc].
  destruct (score y <=? score x) eqn:E; [reflexivity|].
  apply Z.leb_gt in E.
  cbn [filter] in *. rewrite IH.
  destruct (score x =? k) eqn:Ex; destruct (score y =? k) eqn:Ey;
    try reflexivity.
  apply Z.eqb_eq in Ex, Ey. lia.
Qed.

Lemma sorted_desc_keeps_order (k : Z) (l : list AnswerScore) :
  filter (fun r => score r =? k) (sorted_desc l)
  = filter (fun r => score r =? k) l.
Proof.
  induction l as [|x l IH]; [reflexivity|].
  cbn [sorted_desc fold_right].
  change (fold_right insert_desc [] l) with (sorted_desc l).
  rewrite insert_desc_keeps_order. cbn [filter]. rewrite IH. reflexivity.
Qed.

(** X6. The ranking is stable: answers with the same score are returned in
    the order the answers table holds them.  For every score [k], the rows
    of score [k] in the response are the rows of score [k] of the selected
    answers, in table order. *)
Theorem get_top_answers_ties_in_table_order (s : Store)
    (question_id : option Z) (k : Z) :
  exists n rows,
    snd (get_top_answers s question_id) = (JTop true n rows, 200)
    /\ filter (fun r => score r =? k) rows
       = filter (fun r => score r =? k)
                (map (score_row s) (candidates s question_id)).
Proof.
  rewrite get_top_answers_rows. eexists; eexists.
  split; [reflexivity|]. apply sorted_desc_keeps_order.
Qed.

(** X7. The first row of a ranking has the highest score: no selected
    answer scores more than the answer returned first, and the response is
    empty exactly when no answer is selected. *)
Theorem get_top_answers_best_first (s : Store) (question_id : option Z) :
  exists n rows,
    snd (get_top_answers s question_id) = (JTop true n rows, 200)
    /\ (rows = [] <-> candidates s question_id = [])
    /\ forall top rest x,
         rows = top :: rest ->
         In x (candidates s question_id) ->
         score (score_row s x) <= score top.
Proof.
  rewrite get_top_answers_rows. eexists; eexists.
  split; [reflexivity|].
  pose proof (sorted_desc_perm (map (score_row s) (candidates s question_id)))
    as Hperm.
  pose proof (sorted_desc_sorted (map (score_row s) (candidates s question_id)))
    as Hsorted.
  split.
  - split; intros H.
    + rewrite H in Hperm. apply Permutation_sym, Permutation_nil in Hperm.
      apply map_eq_nil in Hperm. exact Hperm.
    + rewrite H. reflexivity.
  - intros top rest x Hrows Hx.
    rewrite Hrows in Hperm, Hsorted.
    assert (Hin : In (score_row s x) (top :: rest)).
    { apply (Permutation_in _ Hperm). apply in_map. exact Hx. }
    destruct Hin as [<-|Hin]; [lia|].
    inversion Hsorted as [|? ? _ Hall]; subst.
    rewrite Forall_forall in Hall. exact (Hall _ Hin).
Qed.

Lemma get_top_answers_best_first_witness :
  let s := mkStore [] [mkAnswer 1 "a" 3 1 false; mkAnswer 2 "b" 3 1 false]
                   [mkVote 1 5 2 "up"] [] [] [] in
  score (score_row s (mkAnswer 1 "a" 3 1 false)) <= 1.
Proof.
  intros s.
  destruct (get_top_answers_best_first s (Some 3)) as (n & rows & Hr & _ & H).
  vm_compute in Hr. injection Hr as _ Hrows.
  apply (H _ _ (mkAnswer 1 "a" 3 1 false) (eq_sym Hrows)).
  left. reflexivity.
Defined.

(** X8. The ranking agrees with the tally: for every row of a ranking
    response, [get_votes] on the row's answer returns the row's up votes,
    down votes and score. *)
Theorem get_top_answers_agrees_with_get_votes (s : Store)
    (question_id : option Z) :
  exists n rows,
    snd (get_top_answers s question_id) = (JTop true n rows, 200)
    /\ Forall (fun r =>
                 get_votes s (as_answer_id r)
                 = (s, (JVotes (as_answer_id r) (upvotes r) (downvotes r)
                               (score r), 200)))
              rows.
Proof.
  rewrite get_top_answers_rows. eexists; eexists.
  split; [reflexivity|].
  apply (Permutation_Forall (sorted_desc_perm _)).
  apply Forall_forall. intros r Hr.
  apply in_map_iff in Hr. destruct Hr as (x & <- & Hx).
  assert (Hcand : In x (answers s)).
  { unfold candidates in Hx.
    destruct (truthy_int question_id); [|exact Hx].
    destruct question_id as [q|]; [|exact Hx].
    apply filter_In in Hx. tauto. }
  unfold get_votes, score_row. cbn [as_answer_id upvotes downvotes score].
  destruct (get_answer s (answer_id x)) as [y|] eqn:E; [reflexivity|].
  exfalso. unfold get_answer in E.
  pose proof (find_none _ _ E x Hcand) as Hn. cbn in Hn.
  rewrite Z.eqb_refl in Hn. discriminate.
Qed.

(** ** Submissions: what an accepted request stores, and the listings *)

(** A submission request is either answered 400, 404 or 500 with no
    change, or it passes every check, saves its file and runs the writes. *)
Lemma submit_assignment_outcome (s : Store) (clock : Clock)
    (form : SubmitForm) :
  (exists resp,
     submit_assignment s clock form = (s, resp)
     /\ (snd resp = 400 \/ snd resp = 404 \/ snd resp = 500))
  \/ (exists st a path,
        form_student_id form = Some st
        /\ form_assignment_id form = Some a
        /\ count (by_student_assignment st a) (submissions s) < 3
        /\ handle_file st a
             (count (by_student_assignment st a) (submissions s))
             (form_file form) = inr path
        /\ save_ok path = true
        /\ submit_assignment s clock form
           = create_submission s clock st a
               (count (by_student_assignment st a) (submissions s))
               (form_content form) path).
Proof.
  unfold submit_assignment.
  destruct (form_student_id form) as [st|];
    [|left; eexists; split; [reflexivity | simpl; auto]].
  destruct (form_assignment_id form) as [a|];
    [|left; eexists; split; [reflexivity | simpl; auto]].
  destruct (get_assignment s a) as [x|];
    [|left; eexists; split; [reflexivity | simpl; auto]].
  destruct (negb (is_active x));
    [left; eexists; split; [reflexivity | simpl; auto]|].
  destruct (due_date x) as [due|];
    [|left; eexists; split; [reflexivity | simpl; auto]].
  destruct (utcnow_deadline clock >? due);
    [left; eexists; split; [reflexivity | simpl; auto]|].
  destruct (get_user s st);
    [|left; eexists; split; [reflexivity | simpl; auto]].
  destruct (count (by_student_assignment st a) (submissions s) >=? 3) eqn:E3;
    [left; eexists; split; [reflexivity | simpl; auto]|].
  destruct (negb (truthy_str (form_content form))
            && negb (truthy_file (form_file form)));
    [left; eexists; split; [reflexivity | simpl; auto]|].
  destruct (handle_file st a _ (form_file form)) as [err|path] eqn:Hf.
  - left. exists err. split; [reflexivity|].
    unfold handle_file in Hf.
    destruct (truthy_file (form_file form)); [|discriminate].
    destruct (form_file form) as [f|]; [|discriminate].
    destruct (negb _); [|discriminate].
    injection Hf as <-. simpl. auto.
  - destruct (save_ok path) eqn:Hok.
    + right. exists st, a, path.
      rewrite Z.geb_leb in E3. apply Z.leb_gt in E3.
      repeat split; auto.
    + left. exists (JServerError, 500).
      split; [apply create_submission_unsaved; exact Hok | simpl; auto].
Qed.

(** The facts about a request answered 201. *)
Lemma submit_assignment_created (s : Store) (clock : Clock)
    (form : SubmitForm) :
  snd (snd (submit_assignment s clock form)) = 201 ->
  exists st a path,
    form_student_id form = Some st
    /\ form_assignment_id form = Some a
    /\ count (by_student_assignment st a) (submissions s) < 3
    /\ handle_file st a
         (count (by_student_assignment st a) (submissions s))
         (form_file form) = inr path
    /\ save_ok path = true
    /\ submit_assignment s clock form
       = create_submission s clock st a
           (count (by_student_assignment st a) (submissions s))
           (form_content form) path.
Proof.
  intros H201.
  destruct (submit_assignment_outcome s clock form)
    as [(resp & Hr & Hst)|H]; [|exact H].
  rewrite Hr in H201. cbn [snd] in H201. lia.
Qed.

Lemma small_count (n : Z) : 0 <= n -> n < 3 -> n = 0 \/ n = 1 \/ n = 2.
Proof. lia. Qed.

(** X9. An accepted submission request reports the attempt it stored: the
    response is "Submission successful (Attempt k of 3)" where [k] is one
    more than the attempts the student had stored for the assignment, [k]
    is 1, 2 or 3, and after the request the student has exactly [k] stored
    attempts. *)
Theorem submit_assignment_attempt_number (s : Store) (clock : Clock)
    (form : SubmitForm) :
  snd (snd (submit_assignment s clock form)) = 201 ->
  exists st a k sub,
    form_student_id form = Some st
    /\ form_assignment_id form = Some a
    /\ k = count (by_student_assignment st a) (submissions s) + 1
    /\ count (by_student_assignment st a)
             (submissions (fst (submit_assignment s clock form))) = k
    /\ ((k = 1
         /\ snd (submit_assignment s clock form)
            = (JSubmitted true "Submission successful (Attempt 1 of 3)" sub,
               201))
        \/ (k = 2
            /\ snd (submit_assignment s clock form)
               = (JSubmitted true "Submission successful (Attempt 2 of 3)" sub,
                  201))
        \/ (k = 3
            /\ snd (submit_assignment s clock form)
               = (JSubmitted true "Submission successful (Attempt 3 of 3)" sub,
                  201))).
Proof.
  intros H201.
  destruct (submit_assignment_created s clock form H201)
    as (st & a & path & Hst & Ha & Hlt & _ & Hok & Hsub).
  rewrite Hsub. unfold create_submission. rewrite Hok.
  cbn [fst snd submissions].
  exists st, a, (count (by_student_assignment st a) (submissions s) + 1).
  eexists. split; [exact Hst|]. split; [exact Ha|]. split; [reflexivity|].
  split.
  - rewrite count_append, count_cons.
    unfold by_student_assignment at 2. cbn [student_id sub_assignment_id].
    rewrite !Z.eqb_refl. cbn [andb].
    change (count (by_student_assignment st a) []) with 0. lia.
  - destruct (small_count _ (count_nonneg _ _) Hlt) as [E|[E|E]];
      rewrite E; [left | right; left | right; right];
      (split; [reflexivity|]); reflexivity.
Qed.

Lemma submit_assignment_attempt_number_witness :
  exists sub,
    snd (submit_assignment (gate_store 2) (clock_at 50) text_form)
    = (JSubmitted true "Submission successful (Attempt 3 of 3)" sub, 201).
Proof.
  destruct (submit_assignment_attempt_number (gate_store 2) (clock_at 50)
              text_form eq_refl)
    as (st & a & k & sub & Hst & Ha & Hk & _ & H).
  injection Hst as <-. injection Ha as <-.
  vm_compute in Hk. subst k. exists sub.
  destruct H as [[E _]|[[E _]|[_ H]]]; [discriminate | discriminate | exact H].
Defined.

Lemma filter_swap_and {A : Type} (p q : A -> bool) (l : list A) :
  filter (fun x => p x && q x) l = filter (fun x => q x && p x) l.
Proof. apply filter_ext. intros x. apply andb_comm. Qed.

(** The rows [get_student_submission] finds are the attempts the gate
    counts. *)
Lemma student_rows (s : Store) (a st : Z) :
  filter (fun x => (sub_assignment_id x =? a) && (student_id x =? st))
         (submissions s)
  = filter (by_student_assignment st a) (submissions s).
Proof.
  unfold by_student_assignment.
  apply (filter_swap_and (fun x => sub_assignment_id x =? a)
                         (fun x => student_id x =? st)).
Qed.

(** X11. [get_student_submission] answers 404 exactly when the student has
    no stored submission for the assignment.  Otherwise its count is the
    number of attempts the submission gate counts for the pair, it lists
    that many rows, every row is a submission of that student for that
    assignment, and the store is unchanged. *)
Theorem get_student_submission_count (s : Store) (a st : Z) :
  fst (get_student_submission s a st) = s
  /\ (snd (get_student_submission s a st)
      = (LError "No submissions found", 404)
      <-> count (by_student_assignment st a) (submissions s) = 0)
  /\ (count (by_student_assignment st a) (submissions s) = 0
      \/ exists rows,
           snd (get_student_submission s a st)
           = (LStudent (count (by_student_assignment st a) (submissions s))
                       rows, 200)
           /\ Z.of_nat (List.length rows)
              = count (by_student_assignment st a) (submissions s)
           /\ Forall (fun r => json_student_id r = st
                               /\ json_assignment_id r = a) rows).
Proof.
  unfold get_student_submission. rewrite student_rows. unfold count.
  destruct (filter (by_student_assignment st a) (submissions s))
    as [|x rest] eqn:E.
  - split; [reflexivity|]. split; [split; reflexivity | left; reflexivity].
  - split; [reflexivity|]. split.
    + split; [discriminate | simpl; lia].
    + right. eexists. split; [reflexivity|].
      split; [rewrite length_map; reflexivity|].
      apply Forall_forall. intros r Hr.
      apply in_map_iff in Hr. destruct Hr as (y & <- & Hy).
      rewrite <- E in Hy. apply filter_In in Hy. destruct Hy as [_ Hy].
      unfold by_student_assignment in Hy. apply andb_true_iff in Hy.
      destruct Hy as [H1 H2]. apply Z.eqb_eq in H1, H2.
      cbn [serialize_submission json_student_id json_assignment_id]. auto.
Qed.

(** X12. An accepted submission shows up in the student's listing: right
    after a request answered 201, [get_student_submission] for the same
    student and assignment answers 200, its count is the old number of
    attempts plus one and at most 3, and its rows are the rows of the
    earlier attempts followed by the new submission with the submitted
    content. *)
Theorem submit_then_listed (s : Store) (clock : Clock) (form : SubmitForm) :
  snd (snd (submit_assignment s clock form)) = 201 ->
  exists st a new_row,
    form_student_id form = Some st
    /\ form_assignment_id form = Some a
    /\ snd (get_student_submission (fst (submit_assignment s clock form)) a st)
       = (LStudent
            (count (by_student_assignment st a) (submissions s) + 1)
            (map serialize_submission
                 (filter (by_student_assignment st a) (submissions s))
             ++ [new_row]), 200)
    /\ count (by_student_assignment st a) (submissions s) + 1 <= 3
    /\ json_content new_row = form_content form
    /\ json_student_id new_row = st
    /\ json_assignment_id new_row = a.
Proof.
  intros H201.
  destruct (submit_assignment_created s clock form H201)
    as (st & a & path & Hst & Ha & Hlt & _ & Hok & Hsub).
  exists st, a.
  rewrite Hsub. unfold create_submission. rewrite Hok. cbn [fst].
  match goal with
  | |- context [submissions s ++ [?x]] => set (new := x)
  end.
  exists (serialize_submission new).
  assert (Hn : by_student_assignment st a new = true).
  { unfold by_student_assignment, new. cbn [student_id sub_assignment_id].
    rewrite !Z.eqb_refl. reflexivity. }
  unfold get_student_submission. rewrite student_rows.
  cbn [submissions]. rewrite filter_app. cbn [filter]. rewrite Hn.
  split; [exact Hst|]. split; [exact Ha|]. split.
  - unfold count.
    set (old := filter (by_student_assignment st a) (submissions s)).
    destruct (old ++ [new]) as [|x rest] eqn:E.
    + apply app_eq_nil in E. destruct E as [_ E]. discriminate.
    + rewrite <- E. cbn [snd].
      rewrite map_app, length_app. cbn [map List.length].
      f_equal. f_equal. lia.
  - split; [lia|]. repeat split.
Qed.

Lemma submit_then_listed_witness :
  exists row,
    snd (get_student_submission
           (fst (submit_assignment (gate_store 1) (clock_at 50) text_form))
           9 5)
    = (LStudent 2 [serialize_submission (attempt 1); row], 200)
    /\ json_content row = Some "my answer"%string.
Proof.
  destruct (submit_then_listed (gate_store 1) (clock_at 50) text_form eq_refl)
    as (st & a & row & Hst & Ha & Hl & _ & Hc & _).
  injection Hst as <-. injection Ha as <-.
  exists row. split; [exact Hl | exact Hc].
Defined.

(** X13. [get_all_submissions] answers 404 exactly when the assignment does
    not exist.  For an existing assignment without submissions it answers
    200 with a message (not 404, unlike the student's listing); otherwise
    its total is the number of submissions stored for the assignment, it
    lists that many rows, and no student's attempt count exceeds the total.
    The store is unchanged. *)
Theorem get_all_submissions_total (s : Store) (a : Z) :
  let total := count (fun x => sub_assignment_id x =? a) (submissions s) in
  fst (get_all_submissions s a) = s
  /\ (snd (get_all_submissions s a) = (LError "Assignment not found", 404)
      <-> get_assignment s a = None)
  /\ match get_assignment s a with
     | None => True
     | Some x =>
       if total =? 0
       then snd (get_all_submissions s a)
            = (LMessage "No submissions for this assignment yet", 200)
       else exists rows,
              snd (get_all_submissions s a)
              = (LAssignment (title x) total rows, 200)
              /\ Z.of_nat (List.length rows) = total
              /\ Forall (fun r => json_assignment_id r = a) rows
     end
  /\ forall st, count (by_student_assignment st a) (submissions s) <= total.
Proof.
  cbv zeta. split; [|split; [|split]].
  - unfold get_all_submissions.
    destruct (get_assignment s a); [|reflexivity].
    destruct (filter _ _); reflexivity.
  - unfold get_all_submissions.
    destruct (get_assignment s a); [|split; reflexivity].
    destruct (filter _ _); split; discriminate.
  - unfold get_all_submissions, count.
    destruct (get_assignment s a) as [x|]; [|exact I].
    destruct (filter (fun x0 => sub_assignment_id x0 =? a) (submissions s))
      as [|y rest] eqn:E.
    + reflexivity.
    + replace (Z.of_nat (List.length (y :: rest)) =? 0) with false
        by (symmetry; apply Z.eqb_neq; simpl; lia).
      eexists. split; [reflexivity|].
      split; [rewrite length_map; reflexivity|].
      apply Forall_forall. intros r Hr.
      apply in_map_iff in Hr. destruct Hr as (z & <- & Hz).
      rewrite <- E in Hz. apply filter_In in Hz. destruct Hz as [_ Hz].
      apply Z.eqb_eq in Hz. exact Hz.
  - intros st. unfold count, by_student_assignment.
    rewrite (filter_swap_and (fun x => student_id x =? st)
                             (fun x => sub_assignment_id x =? a)).
    rewrite (filter_both (fun x => sub_assignment_id x =? a)
                         (fun x => student_id x =? st)).
    pose proof (filter_length_le (fun x => student_id x =? st)
                  (filter (fun x => sub_assignment_id x =? a) (submissions s))).
    lia.
Qed.

(** ** File names of the attempts *)

Lemma append_cancel (p x y : string) : (p ++ x = p ++ y)%string -> x = y.
Proof.
  induction p as [|c p IH]; simpl; [auto|].
  intros H. injection H as H. exact (IH H).
Qed.

Lemma append_assoc (x y z : string) :
  ((x ++ y) ++ z = x ++ (y ++ z))%string.
Proof. induction x as [|c x IH]; simpl; [reflexivity | rewrite IH; reflexivity]. Qed.

(** The path of an accepted file: a part fixed by the student and the
    assignment, then the attempt number and the file name. *)
Lemma handle_file_path (st a k : Z) (f : FileStorage) (p : string) :
  handle_file st a k (Some f) = inr (Some p) ->
  p = (("uploads/submissions/student" ++ str_of_int st ++ "_assignment"
        ++ str_of_int a ++ "_attempt")
       ++ (str_of_int (k + 1) ++ "_" ++ filename f))%string.
Proof.
  unfold handle_file.
  destruct (truthy_file (Some f)); [|discriminate].
  destruct (negb _); [discriminate|].
  intros [= <-]. unfold path_join, UPLOAD_DIR.
  generalize (str_of_int st) (str_of_int a) (str_of_int (k + 1)).
  intros x y z. rewrite !append_assoc. reflexivity.
Qed.

(** X14. Files of different attempts never share a path: for one student
    and one assignment, the path under which the file of one attempt is
    saved differs from the path of every other attempt, whatever the two
    file names are. *)
Theorem attempt_paths_differ (st a k1 k2 : Z) (f1 f2 : FileStorage)
    (p1 p2 : string) :
  0 <= k1 < 3 -> 0 <= k2 < 3 -> k1 <> k2 ->
  handle_file st a k1 (Some f1) = inr (Some p1) ->
  handle_file st a k2 (Some f2) = inr (Some p2) ->
  p1 <> p2.
Proof.
  intros H1 H2 Hne Hp1 Hp2 Heq.
  apply handle_file_path in Hp1, Hp2.
  rewrite Hp1, Hp2 in Heq. apply append_cancel in Heq.
  assert (C1 : k1 = 0 \/ k1 = 1 \/ k1 = 2) by lia.
  assert (C2 : k2 = 0 \/ k2 = 1 \/ k2 = 2) by lia.
  destruct C1 as [ E1 | [ E1 | E1 ] ]; destruct C2 as [ E2 | [ E2 | E2 ] ];
    subst k1 k2; try lia; vm_compute in Heq; discriminate.
Qed.

Lemma attempt_paths_differ_witness :
  ("uploads/submissions/student5_assignment9_attempt1_a.pdf"
   <> "uploads/submissions/student5_assignment9_attempt2_a.pdf")%string.
Proof.
  apply (attempt_paths_differ 5 9 0 1 (mkFileStorage "a.pdf")
           (mkFileStorage "a.pdf"));
    [lia | lia | lia | reflexivity | reflexivity].
Defined.

(** ** Toggling an assignment *)

Lemma with_assignments_twice (s : Store) (l1 l2 : list Assignment) :
  with_assignments (with_assignments s l1) l2 = with_assignments s l2.
Proof. reflexivity. Qed.

Lemma update_first_length {A : Type} (p : A -> bool) (f : A -> A)
    (l : list A) :
  List.length (update_first p f l) = List.length l.
Proof.
  induction l as [|y l IH]; simpl; [reflexivity|].
  destruct (p y); simpl; congruence.
Qed.

Lemma update_first_agree {A : Type} (p : A -> bool) (f g : A -> A)
    (l : list A) (v : A) :
  first p l = Some v -> f v = g v ->
  update_first p f l = update_first p g l.
Proof.
  unfold first.
  induction l as [|y l IH]; simpl; [reflexivity|].
  destruct (p y).
  - intros [= ->] ->. reflexivity.
  - intros H Hv. rewrite (IH H Hv). reflexivity.
Qed.

Lemma get_assignment_updated (s : Store) (a : Z)
    (f : Assignment -> Assignment) :
  (forall x, assignment_id (f x) = assignment_id x) ->
  get_assignment
    (with_assignments s
       (update_first (fun x => assignment_id x =? a) f (assignments s))) a
  = option_map f (get_assignment s a).
Proof.
  intros Hf. unfold get_assignment. cbn [assignments with_assignments].
  apply first_update_first. intros x. rewrite Hf. reflexivity.
Qed.

(** What [toggle_assignment] does to a known assignment. *)
Lemma toggle_assignment_known (s : Store) (a now : Z) (x : Assignment) :
  get_assignment s a = Some x ->
  toggle_assignment s a now
  = (with_assignments s
       (update_first (fun y => assignment_id y =? a)
                     (set_is_active (negb (is_active x)) now) (assignments s)),
     (CToggled true
        (if is_active x then "Assignment deactivated successfully"
         else "Assignment activated successfully")
        (negb (is_active x)), 200)).
Proof.
  intros E. unfold toggle_assignment. rewrite E.
  destruct (is_active x); reflexivity.
Qed.

(** Two toggles, at the times [t1] and [t2]: the flag is back, and the row
    carries the time of the second toggle. *)
Lemma toggle_assignment_back (s : Store) (a t1 t2 : Z) (x : Assignment) :
  get_assignment s a = Some x ->
  get_assignment (fst (toggle_assignment s a t1)) a
  = Some (set_is_active (negb (is_active x)) t1 x)
  /\ fst (toggle_assignment (fst (toggle_assignment s a t1)) a t2)
     = with_assignments s
         (update_first (fun y => assignment_id y =? a) (set_updated_at t2)
                       (assignments s)).
Proof.
  intros E.
  rewrite (toggle_assignment_known s a t1 x E). cbn [fst].
  assert (G : get_assignment
                (with_assignments s
                   (update_first (fun y => assignment_id y =? a)
                      (set_is_active (negb (is_active x)) t1) (assignments s)))
                a
              = Some (set_is_active (negb (is_active x)) t1 x))
    by (rewrite get_assignment_updated, E; reflexivity).
  split; [exact G|].
  rewrite (toggle_assignment_known _ a t2 _ G). cbn [fst].
  rewrite with_assignments_twice.
  cbn [assignments with_assignments is_active set_is_active].
  rewrite update_first_twice by reflexivity.
  f_equal. apply (update_first_agree _ _ _ _ x E).
  rewrite negb_involutive. reflexivity.
Qed.

(** X15. [toggle_assignment] answers 404 for an unknown assignment and
    changes nothing.  For a known one it flips the active flag of that row,
    stamps its [updated_at] with the time of the request, keeps the number
    of assignments and the submissions, and reports the new state.  Two
    toggles in a row report opposite states and bring the flag back: after
    them the store is the one before them except for [updated_at] of that
    row, which holds the time of the second toggle. *)
Theorem toggle_assignment_twice (s : Store) (a t1 t2 : Z) :
  match get_assignment s a with
  | None =>
    toggle_assignment s a t1 = (s, (CError "Assignment not found", 404))
  | Some x =>
    let s1 := fst (toggle_assignment s a t1) in
    get_assignment s1 a
    = Some (mkAssignment (assignment_id x) (title x) (due_date x)
                         (negb (is_active x)) (unit_id x) t1)
    /\ snd (toggle_assignment s a t1)
       = (CToggled true
            (if is_active x then "Assignment deactivated successfully"
             else "Assignment activated successfully")
            (negb (is_active x)), 200)
    /\ fst (toggle_assignment s1 a t2)
       = with_assignments s
           (update_first (fun y => assignment_id y =? a) (set_updated_at t2)
                         (assignments s))
    /\ get_assignment (fst (toggle_assignment s1 a t2)) a
       = Some (mkAssignment (assignment_id x) (title x) (due_date x)
                            (is_active x) (unit_id x) t2)
    /\ snd (toggle_assignment s1 a t2)
       = (CToggled true
            (if is_active x then "Assignment activated successfully"
             else "Assignment deactivated successfully")
            (is_active x), 200)
    /\ List.length (assignments s1) = List.length (assignments s)
    /\ submissions s1 = submissions s
  end.
Proof.
  destruct (get_assignment s a) as [x|] eqn:E.
  - cbv zeta.
    destruct (toggle_assignment_back s a t1 t2 x E) as [G Hback].
    split; [exact G|].
    split; [rewrite (toggle_assignment_known s a t1 x E); reflexivity|].
    split; [exact Hback|].
    split; [rewrite Hback, get_assignment_updated, E; reflexivity|].
    split.
    + rewrite (toggle_assignment_known _ a t2 _ G).
      cbn [snd is_active set_is_active]. rewrite negb_involutive.
      destruct (is_active x); reflexivity.
    + rewrite (toggle_assignment_known s a t1 x E).
      cbn [fst assignments submissions with_assignments].
      split; [apply update_first_length | reflexivity].
  - unfold toggle_assignment. rewrite E. reflexivity.
Qed.

(** The gate reads an assignment's flag and due date only: on a store whose
    assignments were replaced by rows that show the same flag and due date
    for the assignment of the request, the request gets the same answer and
    leads to the same store, up to the assignments. *)
Lemma submit_assignment_other_columns (s : Store) (l : list Assignment)
    (clock : Clock) (form : SubmitForm) (a : Z) :
  form_assignment_id form = Some a ->
  option_map (fun x => (is_active x, due_date x))
             (get_assignment (with_assignments s l) a)
  = option_map (fun x => (is_active x, due_date x)) (get_assignment s a) ->
  submit_assignment (with_assignments s l) clock form
  = (with_assignments (fst (submit_assignment s clock form)) l,
     snd (submit_assignment s clock form)).
Proof.
  intros Ha Hsame. unfold submit_assignment. rewrite Ha.
  destruct (form_student_id form) as [st|]; [|reflexivity].
  destruct (get_assignment (with_assignments s l) a) as [y|];
    destruct (get_assignment s a) as [x|]; try discriminate;
    [|reflexivity].
  cbn [option_map] in Hsame. injection Hsame as Hact Hdue.
  rewrite Hact, Hdue.
  destruct (negb (is_active x)); [reflexivity|].
  destruct (due_date x) as [due|]; [|reflexivity].
  destruct (utcnow_deadline clock >? due); [reflexivity|].
  change (get_user (with_assignments s l) st) with (get_user s st).
  destruct (get_user s st); [|reflexivity].
  cbn [submissions with_assignments].
  destruct (_ >=? 3); [reflexivity|].
  destruct (negb _ && negb _); [reflexivity|].
  destruct (handle_file st a _ (form_file form)) as [err|path];
    [reflexivity|].
  unfold create_submission. destruct (save_ok path); reflexivity.
Qed.

(** X16. A deactivated assignment takes no submissions: after
    [toggle_assignment] on an active assignment, every submission request
    for it is answered "Assignment is not active" and changes nothing.
    After a second toggle a request is decided as before the first: it gets
    the answer it would have got then and writes what it would have written
    then, the assignments keeping the stamp of the second toggle. *)
Theorem toggle_closes_gate (s : Store) (a st t1 t2 : Z) (x : Assignment)
    (clock : Clock) (form : SubmitForm) :
  get_assignment s a = Some x ->
  is_active x = true ->
  form_student_id form = Some st ->
  form_assignment_id form = Some a ->
  let s1 := fst (toggle_assignment s a t1) in
  let s2 := fst (toggle_assignment s1 a t2) in
  submit_assignment s1 clock form
  = (s1, (JError "Assignment is not active", 400))
  /\ submit_assignment s2 clock form
     = (with_assignments (fst (submit_assignment s clock form))
                         (assignments s2),
        snd (submit_assignment s clock form)).
Proof.
  intros Hx Hact Hst Ha s1 s2.
  destruct (toggle_assignment_back s a t1 t2 x Hx) as [Hget Hback].
  fold s1 in Hget, Hback. fold s2 in Hback.
  split.
  - unfold submit_assignment. rewrite Hst, Ha, Hget.
    cbn [is_active set_is_active]. rewrite Hact. reflexivity.
  - rewrite Hback. cbn [assignments with_assignments].
    apply (submit_assignment_other_columns s _ clock form a Ha).
    rewrite get_assignment_updated, Hx by reflexivity. reflexivity.
Qed.

Lemma toggle_closes_gate_witness :
  snd (submit_assignment (fst (toggle_assignment (gate_store 0) 9 20))
                         (clock_at 50) text_form)
  = (JError "Assignment is not active", 400).
Proof.
  rewrite (proj1 (toggle_closes_gate (gate_store 0) 9 5 20 30
                    (mkAssignment 9 "Essay" (Some 100) true 1 10)
                    (clock_at 50) text_form
                    eq_refl eq_refl eq_refl eq_refl)).
  reflexivity.
Defined.

(** ** Splitting file names *)

Lemma concat_cons (sep x : string) (l : list string) :
  l <> [] ->
  String.concat sep (x :: l) = (x ++ sep ++ String.concat sep l)%string.
Proof. destruct l; [contradiction | reflexivity]. Qed.

Lemma split_on_join (sep : ascii) (s : string) :
  String.concat (String sep EmptyString) (split_on sep s) = s.
Proof.
  induction s as [|c s IH]; [reflexivity|].
  cbn [split_on].
  pose proof (split_on_nonempty sep s) as Hne.
  destruct (Ascii.eqb c sep) eqn:E.
  - apply Ascii.eqb_eq in E. subst c.
    rewrite concat_cons by exact Hne. rewrite IH. reflexivity.
  - destruct (split_on sep s) as [|w ws]; [contradiction|].
    destruct ws as [|w' ws].
    + simpl in *. rewrite IH. reflexivity.
    + rewrite concat_cons by discriminate.
      rewrite concat_cons in IH by discriminate.
      simpl. rewrite <- IH. reflexivity.
Qed.

Lemma split_on_parts (sep : ascii) (s : string) :
  Forall (fun w => has_char sep w = false) (split_on sep s).
Proof.
  induction s as [|c s IH]; cbn [split_on].
  - constructor; [reflexivity | constructor].
  - destruct (Ascii.eqb c sep) eqn:E.
    + constructor; [reflexivity | exact IH].
    + destruct (split_on sep s) as [|w ws].
      * constructor; [simpl; rewrite E; reflexivity | constructor].
      * inversion IH as [|? ? Hw Hws]; subst.
        constructor; [simpl; rewrite E, Hw; reflexivity | exact Hws].
Qed.

Lemma split_on_two (sep : ascii) (s : string) :
  has_char sep s = true ->
  exists w1 w2 ws, split_on sep s = w1 :: w2 :: ws.
Proof.
  induction s as [|c s IH]; cbn [has_char split_on]; [discriminate|].
  pose proof (split_on_nonempty sep s) as Hne.
  destruct (Ascii.eqb c sep); cbn [orb].
  - intros _. destruct (split_on sep s) as [|w ws]; [contradiction|].
    eexists; eexists; eexists; reflexivity.
  - intros H. destruct (IH H) as (w1 & w2 & ws & ->).
    eexists; eexists; eexists; reflexivity.
Qed.

(** X17. Splitting a file name at its dots loses nothing: the parts contain
    no dot, there is at least one part, and joining the parts with dots
    gives the name back. *)
Theorem split_on_round_trip (name : string) :
  String.concat "." (split_on "." name) = name
  /\ Forall (fun w => has_char "." w = false) (split_on "." name)
  /\ split_on "." name <> [].
Proof.
  split; [apply split_on_join|].
  split; [apply split_on_parts | apply split_on_nonempty].
Qed.

Lemma concat_snoc (sep x : string) (l : list string) :
  l <> [] ->
  String.concat sep (l ++ [x]) = (String.concat sep l ++ sep ++ x)%string.
Proof.
  induction l as [|y l IH]; [contradiction|]. intros _.
  destruct l as [|z l].
  - reflexivity.
  - change ((y :: z :: l) ++ [x]) with (y :: ((z :: l) ++ [x])).
    rewrite (concat_cons sep y ((z :: l) ++ [x])) by (simpl; discriminate).
    rewrite IH by discriminate.
    rewrite (concat_cons sep y (z :: l)) by discriminate.
    rewrite !append_assoc. reflexivity.
Qed.

(** [rsplit1] on a name with a separator: the text before the last
    separator and the text after it. *)
Lemma rsplit1_parts (sep : ascii) (s : string) :
  has_char sep s = true ->
  exists before after,
    rsplit1 sep s = [before; after]
    /\ s = (before ++ String sep after)%string
    /\ has_char sep after = false
    /\ after = last (split_on sep s) EmptyString.
Proof.
  intros H.
  destruct (split_on_two sep s H) as (w1 & w2 & ws & E).
  unfold rsplit1. rewrite E.
  exists (String.concat (String sep EmptyString) (removelast (w1 :: w2 :: ws))).
  exists (last (w1 :: w2 :: ws) EmptyString).
  split; [reflexivity|].
  assert (Hparts : w1 :: w2 :: ws
                   = removelast (w1 :: w2 :: ws)
                     ++ [last (w1 :: w2 :: ws) EmptyString])
    by (apply app_removelast_last; discriminate).
  split; [|split; [|reflexivity]].
  - rewrite <- (split_on_join sep s) at 1. rewrite E.
    rewrite Hparts at 1.
    rewrite concat_snoc by (simpl; destruct ws; discriminate).
    reflexivity.
  - pose proof (split_on_parts sep s) as Hall. rewrite E in Hall.
    rewrite Forall_forall in Hall. apply Hall.
    rewrite Hparts at 2. apply in_or_app. right. left. reflexivity.
Qed.

(** X18. [allowed_file] accepts exactly the names that have a dot and whose
    part after the last dot, lower-cased, is pdf, docx, doc or zip.  For a
    name with a dot this is the extension the submission view computes; a
    name without a dot is refused here, also when the name itself is an
    allowed extension. *)
Theorem allowed_file_extension (name : string) :
  allowed_file name
  = has_char "." name && str_in (file_ext name) ALLOWED_EXTENSIONS
  /\ (has_char "." name = false -> allowed_file name = false)
  /\ (has_char "." name = true ->
      exists before after,
        name = (before ++ "." ++ after)%string
        /\ has_char "." after = false
        /\ allowed_file name = str_in (lower after) ALLOWED_EXTENSIONS).
Proof.
  unfold allowed_file, file_ext.
  destruct (has_char "." name) eqn:H; cbn [andb].
  - destruct (rsplit1_parts _ _ H) as (before & after & Hr & Hname & Hno & Hlast).
    rewrite Hr. cbn [nth]. rewrite <- Hlast.
    split; [reflexivity|]. split; [discriminate|].
    intros _. exists before, after. auto.
  - split; [reflexivity|]. split; [reflexivity | discriminate].
Qed.

Lemma allowed_file_extension_witness :
  allowed_file "notes.v2.ZIP" = true /\ allowed_file "zip" = false.
Proof.
  destruct (allowed_file_extension "notes.v2.ZIP") as (_ & _ & H1).
  destruct (allowed_file_extension "zip") as (_ & H2 & _).
  split; [|apply H2; reflexivity].
  destruct (H1 eq_refl) as (before & after & _ & _ & _). reflexivity.
Defined.

(** ** Deleting an answer *)

Lemma filter_implied {A : Type} (p q : A -> bool) (l : list A) :
  (forall x, q x = true -> p x = true) ->
  filter q (filter p l) = filter q l.
Proof.
  intros H. induction l as [|x l IH]; simpl; [reflexivity|].
  destruct (p x) eqn:Ep; simpl.
  - rewrite IH. reflexivity.
  - destruct (q x) eqn:Eq; [|exact IH].
    rewrite (H x Eq) in Ep. discriminate.
Qed.

Lemma delete_first_length {A : Type} (p : A -> bool) (l : list A) (v : A) :
  first p l = Some v ->
  Z.of_nat (List.length (delete_first p l)) = Z.of_nat (List.length l) - 1.
Proof.
  intros H.
  destruct (first_split p (fun x => x) l v H)
    as (before & after & -> & _ & _ & -> & _).
  rewrite !length_app. cbn [List.length]. lia.
Qed.

Lemma same_int_true (x : Z) (y : option Z) :
  same_int (Some x) y = true <-> y = Some x.
Proof.
  destruct y as [w|]; simpl; [|split; discriminate].
  rewrite Z.eqb_eq. split; [intros ->; reflexivity | intros [= ->]; reflexivity].
Qed.

(** X19. [delete_answer] deletes only for the author: it answers
    "author_id is required" (400) when neither the body nor the query
    string gives a nonzero author id, "Answer not found" (404) when an id is
    given and the answer is unknown, and 403 when the id given is not the
    answer's author, and then changes nothing.  When it
    answers 200 the answer row is gone and so is every vote on that answer,
    the tallies of all other answers are what they were, and [get_votes]
    on the deleted answer answers "Answer not found" (the answer's id being
    the key of one row only). *)
Theorem delete_answer_cascade (s : Store) (a : Z)
    (json_author arg_author : option Z) :
  let r := delete_answer s a json_author arg_author in
  (snd (snd r) = 200
   \/ (fst r = s
       /\ (snd (snd r) = 400 \/ snd (snd r) = 403 \/ snd (snd r) = 404)))
  /\ (truthy_int json_author = false ->
      truthy_int arg_author = false ->
      r = (s, (CError "author_id is required", 400)))
  /\ (truthy_int (or_int json_author arg_author) = true ->
      get_answer s a = None ->
      r = (s, (CError "Answer not found", 404)))
  /\ (forall x,
        get_answer s a = Some x ->
        truthy_int (or_int json_author arg_author) = true ->
        or_int json_author arg_author <> Some (answer_author_id x) ->
        r = (s, (CError "You can only delete your own answer.", 403)))
  /\ (snd (snd r) = 200 ->
      (exists x,
         get_answer s a = Some x
         /\ or_int json_author arg_author = Some (answer_author_id x))
      /\ (forall v, In v (votes (fst r)) -> vote_answer_id v <> a)
      /\ (forall b t,
            b <> a ->
            count (by_answer_type b t) (votes (fst r))
            = count (by_answer_type b t) (votes s))
      /\ Z.of_nat (List.length (answers (fst r)))
         = Z.of_nat (List.length (answers s)) - 1
      /\ (count (fun y => answer_id y =? a) (answers s) = 1 ->
          get_votes (fst r) a = (fst r, (JError "Answer not found", 404)))).
Proof.
  cbv zeta.
  assert (H400 : truthy_int json_author = false ->
                 truthy_int arg_author = false ->
                 delete_answer s a json_author arg_author
                 = (s, (CError "author_id is required", 400))).
  { intros H1 H2. unfold delete_answer, or_int. rewrite H1, H2. reflexivity. }
  assert (H404 : truthy_int (or_int json_author arg_author) = true ->
                 get_answer s a = None ->
                 delete_answer s a json_author arg_author
                 = (s, (CError "Answer not found", 404))).
  { intros H1 H2. unfold delete_answer. rewrite H1, H2. reflexivity. }
  split; [|split; [exact H400|split; [exact H404|]]];
    clear H400 H404; unfold delete_answer.
  - destruct (truthy_int (or_int json_author arg_author)); cbn [negb];
      [|right; split; [reflexivity | simpl; auto]].
    destruct (get_answer s a) as [x|];
      [|right; split; [reflexivity | simpl; auto]].
    destruct (negb _); [right; split; [reflexivity | simpl; auto]|].
    left. reflexivity.
  - destruct (truthy_int (or_int json_author arg_author)) eqn:Ht; cbn [negb].
    2:{ split; [discriminate | simpl; discriminate]. }
    destruct (get_answer s a) as [x|] eqn:E.
    2:{ split; [discriminate | simpl; discriminate]. }
    assert (Hid : answer_id x = a).
    { unfold get_answer in E. apply find_some in E.
      destruct E as [_ E]. apply Z.eqb_eq in E. exact E. }
    destruct (same_int (Some (answer_author_id x))
                       (or_int json_author arg_author)) eqn:Hs; cbn [negb].
    + apply same_int_true in Hs.
      split; [intros y [= <-] _ Hne; contradiction|].
      intros _. cbn [fst snd votes answers]. rewrite Hid.
      split; [exists x; auto|].
      split.
      { intros v Hv. apply filter_In in Hv. destruct Hv as [_ Hv].
        apply negb_true_iff, Z.eqb_neq in Hv. exact Hv. }
      split.
      { intros b t Hb. unfold count. f_equal. f_equal.
        apply filter_implied. intros v Hv.
        unfold by_answer_type in Hv. apply andb_true_iff in Hv.
        destruct Hv as [Hv _]. apply Z.eqb_eq in Hv.
        apply negb_true_iff, Z.eqb_neq. congruence. }
      split; [apply (delete_first_length _ _ x); exact E|].
      intros Hone. unfold get_votes, get_answer. cbn [answers].
      rewrite first_filter, filter_delete_first.
      unfold count in Hone.
      destruct (filter (fun y => answer_id y =? a) (answers s))
        as [|y [|z rest]]; simpl in Hone; try lia.
      reflexivity.
    + split; [|simpl; discriminate].
      intros y [= <-] _ _. reflexivity.
Qed.

Lemma delete_answer_cascade_witness :
  let s := mkStore [] [mkAnswer 1 "a" 3 6 false; mkAnswer 2 "b" 3 7 false]
                   [mkVote 1 5 2 "up"; mkVote 2 5 1 "down"] [] [] [] in
  delete_answer s 2 (Some 6) None
  = (s, (CError "You can only delete your own answer.", 403))
  /\ votes (fst (delete_answer s 2 None (Some 7))) = [mkVote 2 5 1 "down"]
  /\ delete_answer s 2 (Some 0) None
     = (s, (CError "author_id is required", 400))
  /\ delete_answer s 9 (Some 6) None = (s, (CError "Answer not found", 404)).
Proof.
  intros s. split.
  - apply (proj1 (proj2 (proj2 (proj2
               (delete_answer_cascade s 2 (Some 6) None))))
                 (mkAnswer 2 "b" 3 7 false));
      [reflexivity | reflexivity | discriminate].
  - destruct (proj2 (proj2 (proj2 (proj2
               (delete_answer_cascade s 2 None (Some 7))))) eq_refl)
      as (_ & _ & _ & _ & _).
    split; [reflexivity|]. split.
    + apply (proj1 (proj2 (delete_answer_cascade s 2 (Some 0) None)));
        reflexivity.
    + apply (proj1 (proj2 (proj2 (delete_answer_cascade s 9 (Some 6) None))));
        reflexivity.
Defined.

(** ** What the requests leave alone *)

Lemma handle_other_tables (s : Store) (c : Call) :
  users (fst (handle s c)) = users s
  /\ answers (fst (handle s c)) = answers s
  /\ assignments (fst (handle s c)) = assignments s
  /\ submissions (fst (handle s c)) = submissions s
  /\ saved_files (fst (handle s c)) = saved_files s.
Proof.
  destruct c as [a data | a u]; cbn [handle].
  - unfold vote_answer.
    destruct (negb _); [repeat split|].
    destruct (data_user_id data) as [w|]; [|repeat split].
    destruct (data_vote_type data) as [t|]; [|repeat split].
    destruct (negb _); [repeat split|].
    destruct (get_answer s a); [|repeat split].
    destruct (get_user s w); [|repeat split].
    destruct (first _ _) as [v|]; [destruct (_ =? _)%string|]; repeat split.
  - unfold remove_vote.
    destruct (negb _); [repeat split|].
    destruct u as [w|]; [|repeat split].
    destruct (first _ _); repeat split.
Qed.

(** The pair of a user and an answer a ledger request is about. *)
Lemma handle_other_pair (s : Store) (c : Call) (u a : Z) :
  match c with
  | CastVote a' data =>
    match data_user_id data with
    | Some u' => (u' =? u) && (a' =? a) = false
    | None => True
    end
  | RemoveVote a' (Some u') => (u' =? u) && (a' =? a) = false
  | RemoveVote _ None => True
  end ->
  pair_votes (fst (handle s c)) u a = pair_votes s u a.
Proof.
  intros H. rewrite handle_pair_votes.
  destruct c as [a' [[u'|] [t|]] | a' [u'|]]; cbn [cast_on data_user_id] in *;
    try reflexivity; rewrite H; reflexivity.
Qed.

(** X20. Ledger requests touch one pair only.  Whatever sequence of
    [vote_answer] and [remove_vote] requests runs, none of them made by user
    [u] on answer [a], the votes of [u] on [a] are the rows they were, and
    the users, answers, assignments, submissions and saved files are
    untouched by any sequence. *)
Theorem ledger_frame (u a : Z) (calls : list Call) (s : Store) :
  (users (run s calls) = users s
   /\ answers (run s calls) = answers s
   /\ assignments (run s calls) = assignments s
   /\ submissions (run s calls) = submissions s
   /\ saved_files (run s calls) = saved_files s)
  /\ (Forall (fun c =>
                match c with
                | CastVote a' data =>
                  data_user_id data <> Some u \/ a' <> a
                | RemoveVote a' u' => u' <> Some u \/ a' <> a
                end) calls ->
      pair_votes (run s calls) u a = pair_votes s u a).
Proof.
  split.
  - revert s. induction calls as [|c calls IH]; intros s; [repeat split|].
    cbn [run fold_left]. 
    destruct (IH (fst (handle s c))) as (H1 & H2 & H3 & H4 & H5).
    destruct (handle_other_tables s c) as (G1 & G2 & G3 & G4 & G5).
    unfold run in *. rewrite H1, H2, H3, H4, H5. auto.
  - revert s. induction calls as [|c calls IH]; intros s Hall; [reflexivity|].
    inversion Hall as [|? ? Hc Hrest]; subst.
    cbn [run fold_left]. 
    change (fold_left (fun st c0 => fst (handle st c0)) calls
                      (fst (handle s c)))
      with (run (fst (handle s c)) calls).
    rewrite (IH _ Hrest). apply handle_other_pair.
    destruct c as [a' data | a' [u'|]]; [| |exact I].
    + destruct (data_user_id data) as [u'|]; [|exact I].
      apply andb_false_iff.
      destruct Hc as [Hc|Hc]; [left | right]; apply Z.eqb_neq; congruence.
    + apply andb_false_iff.
      destruct Hc as [Hc|Hc]; [left | right]; apply Z.eqb_neq; congruence.
Qed.

Lemma ledger_frame_witness :
  let s := mkStore [mkUser 7 "ann" "ann@example.org" "student";
                    mkUser 8 "bob" "bob@example.org" "student"]
                   [mkAnswer 4 "because" 2 7 false]
                   [mkVote 1 7 4 "up"] [] [] [] in
  pair_votes
    (run s [CastVote 4 (mkVoteData (Some 8) (Some "down"%string));
            RemoveVote 4 (Some 8)]) 7 4
  = [mkVote 1 7 4 "up"].
Proof.
  intros s.
  rewrite (proj2 (ledger_frame 7 4
                    [CastVote 4 (mkVoteData (Some 8) (Some "down"%string));
                     RemoveVote 4 (Some 8)] s)).
  - reflexivity.
  - constructor; [left; discriminate|].
    constructor; [left; discriminate | constructor].
Defined.


(** ** Letter case of file names *)

Lemma lower_ascii_dot (c : ascii) :
  Ascii.eqb (lower_ascii c) "." = Ascii.eqb c ".".
Proof.
  destruct c as [[] [] [] [] [] [] [] []]; reflexivity.
Qed.

Lemma lower_ascii_twice (c : ascii) :
  lower_ascii (lower_ascii c) = lower_ascii c.
Proof.
  destruct c as [[] [] [] [] [] [] [] []]; reflexivity.
Qed.

Lemma lower_twice (s : string) : lower (lower s) = lower s.
Proof.
  induction s as [|c s IH]; simpl; [reflexivity|].
  rewrite lower_ascii_twice, IH. reflexivity.
Qed.

Lemma split_on_lower (s : string) :
  split_on "." (lower s) = map lower (split_on "." s).
Proof.
  induction s as [|c s IH]; [reflexivity|].
  cbn [lower split_on]. rewrite lower_ascii_dot, IH.
  destruct (Ascii.eqb c "."); [reflexivity|].
  destruct (split_on "." s); reflexivity.
Qed.

Lemma last_map_lower (l : list string) :
  last (map lower l) EmptyString = lower (last l EmptyString).
Proof.
  induction l as [|x l IH]; [reflexivity|].
  destruct l as [|y l]; [reflexivity|].
  change (last (map lower (x :: y :: l)) EmptyString)
    with (last (map lower (y :: l)) EmptyString).
  rewrite IH. reflexivity.
Qed.

Lemma file_ext_lower (name : string) : file_ext (lower name) = file_ext name.
Proof.
  unfold file_ext.
  rewrite split_on_lower, last_map_lower. apply lower_twice.
Qed.

(** X22. The file-type check of a submission ignores letter case: two file
    names that are equal up to letter case have the same extension, so both
    are accepted or both refused; and the extension computed holds no
    upper-case letter. *)
Theorem file_ext_ignores_case (n1 n2 : string) :
  lower n1 = lower n2 ->
  file_ext n1 = file_ext n2
  /\ str_in (file_ext n1) allowed_ext = str_in (file_ext n2) allowed_ext
  /\ lower (file_ext n1) = file_ext n1.
Proof.
  intros H.
  assert (E : file_ext n1 = file_ext n2)
    by (rewrite <- (file_ext_lower n1), <- (file_ext_lower n2), H; reflexivity).
  split; [exact E|]. split; [rewrite E; reflexivity|].
  unfold file_ext. apply lower_twice.
Qed.

Lemma file_ext_ignores_case_witness :
  file_ext "Essay.Final.PdF" = file_ext "essay.final.pdf".
Proof.
  apply (file_ext_ignores_case "Essay.Final.PdF" "essay.final.pdf").
  reflexivity.
Defined.
